(** * Shallow embedding of [src/app.py] (Gemini image preview demo)

    The module [app.py] consists of two helpers, [image_to_base64] and
    [save_base64_to_jpeg], and the request handler [gemini_generate].
    External collaborators (PIL, [requests], [json.loads]/[json.dumps],
    [uuid.uuid4]) are parameters of a [World] record: every theorem is
    stated for all behaviours of these libraries, unless it says otherwise.
    The Python standard-library base64 codec ([binascii]) is written out,
    because two claims turn on it.

    Python exceptions are the [Raise] outcome of a small state/exception
    monad; the state records the HTTP requests issued, the files written
    and the number of [uuid4] values drawn. *)

From Stdlib Require Import List String Ascii ZArith Bool Lia.
Import ListNotations.
Open Scope string_scope.
Open Scope Z_scope.
Set Warnings "-register-all".


(* ------------------------------------------------------------------ *)
(** ** Python values produced by [json.loads] *)

Inductive json : Type :=
| JNull
| JBool (b : bool)
| JNum (n : Z)
| JStr (s : string)
| JArr (xs : list json)
| JObj (kvs : list (string * json)).

(** Dictionary lookup on the key/value list of a dict (insertion order). *)
Fixpoint obj_lookup (k : string) (kvs : list (string * json)) : option json :=
  match kvs with
  | [] => None
  | (k', v) :: rest => if String.eqb k k' then Some v else obj_lookup k rest
  end.

(** Python truthiness ([bool(v)]). *)
Definition truthy (v : json) : bool :=
  match v with
  | JNull => false
  | JBool b => b
  | JNum n => negb (Z.eqb n 0)
  | JStr s => negb (String.eqb s "")
  | JArr xs => match xs with [] => false | _ => true end
  | JObj kvs => match kvs with [] => false | _ => true end
  end.

Definition type_name (v : json) : string :=
  match v with
  | JNull => "NoneType" | JBool _ => "bool" | JNum _ => "int"
  | JStr _ => "str" | JArr _ => "list" | JObj _ => "dict"
  end.

(** Outcome of a Python computation: a value or a raised exception,
    carried with its [str(e)] text. *)
Inductive outcome (A : Type) : Type :=
| Ok (a : A)
| Raise (msg : string).
Arguments Ok {A} a.
Arguments Raise {A} msg.

Definition exc_bind {A B} (m : outcome A) (f : A -> outcome B) : outcome B :=
  match m with Ok a => f a | Raise e => Raise e end.

(** [d.get(k, default)]: only dicts have a [get] method. *)
Definition py_get (d : json) (k : string) (default : json) : outcome json :=
  match d with
  | JObj kvs => match obj_lookup k kvs with Some v => Ok v | None => Ok default end
  | v => Raise ("'" ++ type_name v ++ "' object has no attribute 'get'")
  end.

(** [v[k]] for a string key [k]. *)
Definition py_getitem (v : json) (k : string) : outcome json :=
  match v with
  | JObj kvs => match obj_lookup k kvs with Some x => Ok x | None => Raise ("'" ++ k ++ "'") end
  | JArr _ => Raise "list indices must be integers or slices, not str"
  | JStr _ => Raise "string indices must be integers, not 'str'"
  | v => Raise ("'" ++ type_name v ++ "' object is not subscriptable")
  end.

(** [v[0]]. *)
Definition py_index0 (v : json) : outcome json :=
  match v with
  | JArr (x :: _) => Ok x
  | JArr [] => Raise "list index out of range"
  | JStr (String c _) => Ok (JStr (String c EmptyString))
  | JStr EmptyString => Raise "string index out of range"
  | JObj _ => Raise "0"
  | v => Raise ("'" ++ type_name v ++ "' object is not subscriptable")
  end.

(** [for x in v]: the elements a Python loop visits. *)
Definition py_iter (v : json) : outcome (list json) :=
  match v with
  | JArr xs => Ok xs
  | JObj kvs => Ok (map (fun kv => JStr (fst kv)) kvs)
  | JStr s => Ok (map (fun c => JStr (String c EmptyString)) (list_ascii_of_string s))
  | v => Raise ("'" ++ type_name v ++ "' object is not iterable")
  end.

Fixpoint is_prefix (p s : string) : bool :=
  match p, s with
  | EmptyString, _ => true
  | String a p', String b s' => Ascii.eqb a b && is_prefix p' s'
  | String _ _, EmptyString => false
  end.

Fixpoint is_substring (p s : string) : bool :=
  is_prefix p s || match s with EmptyString => false | String _ s' => is_substring p s' end.

Definition json_is_str (k : string) (v : json) : bool :=
  match v with JStr s => String.eqb s k | _ => false end.

(** [k in v] for a string [k]. *)
Definition py_contains (k : string) (v : json) : outcome bool :=
  match v with
  | JObj kvs => Ok (match obj_lookup k kvs with Some _ => true | None => false end)
  | JStr s => Ok (is_substring k s)
  | JArr xs => Ok (existsb (json_is_str k) xs)
  | v => Raise ("argument of type '" ++ type_name v ++ "' is not iterable")
  end.


(** Decimal rendering of an [int], as done by f-strings and [str()]. *)
Fixpoint dec_digits (fuel : nat) (n : Z) (acc : string) : string :=
  match fuel with
  | O => acc
  | S f =>
      let acc' := String (ascii_of_nat (48 + Z.to_nat (n mod 10))) acc in
      if n <? 10 then acc' else dec_digits f (n / 10) acc'
  end.

Definition py_str_int (n : Z) : string :=
  let digits m := dec_digits (S (Z.to_nat (Z.log2 m))) m EmptyString in
  if n <? 0 then "-" ++ digits (- n) else digits n.

(* ------------------------------------------------------------------ *)
(** ** [base64.b64encode] / [base64.b64decode] (CPython [binascii])

    A byte is an 8-bit [Z]; a byte string is a list of them. *)

Definition byte_ok (b : Z) : Prop := 0 <= b < 256.

(** [table_b2a_base64]. *)
Definition b64_char (n : Z) : ascii :=
  if n <? 26 then ascii_of_nat (65 + Z.to_nat n)
  else if n <? 52 then ascii_of_nat (97 + Z.to_nat (n - 26))
  else if n <? 62 then ascii_of_nat (48 + Z.to_nat (n - 52))
  else if n =? 62 then "+"%char else "/"%char.

(** [table_a2b_base64]: 64 and above mark characters outside the alphabet. *)
Definition b64_val (c : ascii) : Z :=
  let n := Z.of_nat (nat_of_ascii c) in
  if (65 <=? n) && (n <=? 90) then n - 65
  else if (97 <=? n) && (n <=? 122) then n - 71
  else if (48 <=? n) && (n <=? 57) then n + 4
  else if n =? 43 then 62
  else if n =? 47 then 63
  else 255.

(** [binascii.b2a_base64(s, newline=False)], three input bytes at a time. *)
Fixpoint b64_encode_bytes (bs : list Z) : list ascii :=
  match bs with
  | b1 :: b2 :: b3 :: rest =>
      b64_char (Z.shiftr b1 2)
      :: b64_char (Z.lor (Z.shiftl (Z.land b1 3) 4) (Z.shiftr b2 4))
      :: b64_char (Z.lor (Z.shiftl (Z.land b2 15) 2) (Z.shiftr b3 6))
      :: b64_char (Z.land b3 63)
      :: b64_encode_bytes rest
  | [b1; b2] =>
      [b64_char (Z.shiftr b1 2);
       b64_char (Z.lor (Z.shiftl (Z.land b1 3) 4) (Z.shiftr b2 4));
       b64_char (Z.shiftl (Z.land b2 15) 2); "="%char]
  | [b1] =>
      [b64_char (Z.shiftr b1 2); b64_char (Z.shiftl (Z.land b1 3) 4);
       "="%char; "="%char]
  | [] => []
  end.

(** [base64.b64encode(bs).decode("utf-8")]. *)
Definition b64encode (bs : list Z) : string :=
  string_of_list_ascii (b64_encode_bytes bs).

(** Decoder state of [binascii_a2b_base64_impl]; [out] is kept reversed. *)
Record a2b_state := mk_a2b {
  quad_pos : nat;
  leftchar : Z;
  pads : nat;
  out : list Z
}.

Definition a2b_init : a2b_state := mk_a2b 0 0 0 [].

(** One data character [v] (already known to be below 64). *)
Definition a2b_data (s : a2b_state) (v : Z) : a2b_state :=
  match quad_pos s with
  | O => mk_a2b 1 v 0 (out s)
  | 1%nat => mk_a2b 2 (Z.land v 15)
               0 (Z.land (Z.lor (Z.shiftl (leftchar s) 2) (Z.shiftr v 4)) 255 :: out s)
  | 2%nat => mk_a2b 3 (Z.land v 3)
               0 (Z.land (Z.lor (Z.shiftl (leftchar s) 4) (Z.shiftr v 2)) 255 :: out s)
  | _ => mk_a2b 0 0
               0 (Z.land (Z.lor (Z.shiftl (leftchar s) 6) v) 255 :: out s)
  end.

(** The non-strict loop; [true] in the result is the [goto done] taken on a
    complete pad sequence. *)
Fixpoint a2b_loop (s : a2b_state) (cs : list ascii) : bool * a2b_state :=
  match cs with
  | [] => (false, s)
  | c :: cs' =>
      if Ascii.eqb c "="%char then
        if (2 <=? quad_pos s)%nat then
          let p := S (pads s) in
          let s' := mk_a2b (quad_pos s) (leftchar s) p (out s) in
          if (4 <=? quad_pos s + p)%nat then (true, s') else a2b_loop s' cs'
        else a2b_loop s cs'
      else
        let v := b64_val c in
        if 64 <=? v then a2b_loop s cs' else a2b_loop (a2b_data s v) cs'
  end.

Definition a2b_base64 (cs : list ascii) : outcome (list Z) :=
  let '(done, s) := a2b_loop a2b_init cs in
  if done then Ok (rev (out s))
  else match quad_pos s with
       | O => Ok (rev (out s))
       | 1%nat => Raise ("Invalid base64-encoded string: number of data characters ("
                   ++ py_str_int (Z.of_nat (List.length (out s)) / 3 * 4 + 1)
                   ++ ") cannot be 1 more than a multiple of 4")
       | _ => Raise "Incorrect padding"
       end.

(** [base64.b64decode(v)] on a Python value: a [str] must be ASCII. *)
Definition b64decode (v : json) : outcome (list Z) :=
  match v with
  | JStr s =>
      let cs := list_ascii_of_string s in
      if forallb (fun c => nat_of_ascii c <? 128)%nat cs then a2b_base64 cs
      else Raise "string argument should contain only ASCII characters"
  | v => Raise ("argument should be a bytes-like object or ASCII string, not '"
                ++ type_name v ++ "'")
  end.

(* ------------------------------------------------------------------ *)
(** ** The world: PIL, [requests], [json], [uuid] *)

(** A [requests.Response]: [status_code], [text] and [content]. *)
Record response := mk_response {
  status_code : Z;
  text : string;
  content : list Z
}.

(** A PIL [Image] object: mode, size and pixel data. *)
Record image := mk_image {
  im_mode : string;
  im_width : Z;
  im_height : Z;
  im_pixels : list Z
}.

(** An HTTP request issued through [requests]. *)
Inductive call : Type :=
| Post (url : string) (headers : list (string * string)) (payload : json)
| Get (uri : json).

(** The process state the handler touches: the HTTP requests issued so far
    (oldest first), the files of the working directory (newest first) and
    the number of [uuid4()] values drawn. *)
Record St := mk_st {
  calls : list call;
  files : list (string * list Z);
  uuids : nat
}.

Record World := mk_world {
  (** [Image.open(img_file)] on a Gradio file path ([None] when no upload) *)
  pil_open_path : option string -> outcome image;
  (** [Image.open(BytesIO(bs))] *)
  pil_open_bytes : list Z -> outcome image;
  (** [img.convert("RGB")] *)
  pil_convert_rgb : image -> outcome image;
  (** the bytes [img.save(fp, format="JPEG")] writes *)
  pil_save_jpeg : image -> outcome (list Z);
  (** [requests.post(url, headers=..., json=...)], given the earlier requests *)
  http_post : list call -> string -> list (string * string) -> json -> outcome response;
  (** [requests.get(uri)], given the earlier requests *)
  http_get : list call -> json -> outcome response;
  (** [json.loads] as used by [resp.json()] *)
  json_loads : string -> outcome json;
  (** [json.dumps(v, indent=2)] *)
  json_dumps : json -> string;
  (** [uuid.uuid4().hex] of the n-th draw *)
  uuid4_hex : nat -> string
}.

(* ------------------------------------------------------------------ *)
(** ** A state and exception monad *)

Definition M (A : Type) : Type := St -> outcome A * St.

Definition ret {A} (a : A) : M A := fun st => (Ok a, st).

Definition bind {A B} (m : M A) (f : A -> M B) : M B :=
  fun st => match m st with
            | (Ok a, st') => f a st'
            | (Raise e, st') => (Raise e, st')
            end.

Notation "x <- m ;; k" := (bind m (fun x => k))
  (at level 61, m at next level, right associativity).
Notation "' p <- m ;; k" := (bind m (fun x => match x with p => k end))
  (at level 61, p pattern, m at next level, right associativity).

Definition lift {A} (o : outcome A) : M A := fun st => (o, st).

(** [try: m except Exception as e: h(str(e))] *)
Definition try_except {A} (m : M A) (h : string -> M A) : M A :=
  fun st => match m st with
            | (Ok a, st') => (Ok a, st')
            | (Raise e, st') => h e st'
            end.

Definition requests_post (w : World) (url : string) (hdrs : list (string * string))
    (payload : json) : M response :=
  fun st => (http_post w (calls st) url hdrs payload,
             mk_st (calls st ++ [Post url hdrs payload])%list (files st) (uuids st)).

Definition requests_get (w : World) (uri : json) : M response :=
  fun st => (http_get w (calls st) uri,
             mk_st (calls st ++ [Get uri])%list (files st) (uuids st)).

Definition uuid4 (w : World) : M string :=
  fun st => (Ok (uuid4_hex w (uuids st)), mk_st (calls st) (files st) (S (uuids st))).

Definition write_file (name : string) (bs : list Z) : M unit :=
  fun st => (Ok tt, mk_st (calls st) ((name, bs) :: files st) (uuids st)).

Fixpoint file_lookup (name : string) (fs : list (string * list Z)) : option (list Z) :=
  match fs with
  | [] => None
  | (n, bs) :: rest => if String.eqb n name then Some bs else file_lookup name rest
  end.

(** [open(name, "rb").read()] *)
Definition read_file (name : string) : M (list Z) :=
  fun st => match file_lookup name (files st) with
            | Some bs => (Ok bs, st)
            | None => (Raise ("[Errno 2] No such file or directory: '" ++ name ++ "'"), st)
            end.

(* ------------------------------------------------------------------ *)
(** ** [app.py] *)

Section App.

Variable w : World.

(** [image_to_base64] (lines 12-17). *)
Definition image_to_base64 (img_file : option string) : outcome string :=
  exc_bind (pil_open_path w img_file) (fun image0 =>
  exc_bind (pil_convert_rgb w image0) (fun image =>
  exc_bind (pil_save_jpeg w image) (fun buffered =>
  Ok (b64encode buffered)))).

(** [save_base64_to_jpeg] (lines 19-25). *)
Definition save_base64_to_jpeg (b64_data : json) : M string :=
  img_bytes <- lift (b64decode b64_data) ;;
  img0 <- lift (pil_open_bytes w img_bytes) ;;
  img <- lift (pil_convert_rgb w img0) ;;
  hex <- uuid4 w ;;
  let filename := "generated_" ++ hex ++ ".jpeg" in
  bs <- lift (pil_save_jpeg w img) ;;
  _ <- write_file filename bs ;;
  ret filename.

(** The request body built at lines 39-60. *)
Definition build_payload (prompt influencer_b64 product_b64 : string) : json :=
  JObj [("contents",
    JArr [JObj [("role", JStr "user");
                ("parts", JArr [
                   JObj [("text", JStr prompt)];
                   JObj [("inlineData", JObj [("mimeType", JStr "image/jpeg");
                                              ("data", JStr influencer_b64)])];
                   JObj [("inlineData", JObj [("mimeType", JStr "image/jpeg");
                                              ("data", JStr product_b64)])]])]])].

Definition gemini_url : string :=
  "https://generativelanguage.googleapis.com/v1beta/models/gemini-2.5-flash-image-preview:generateContent".

Definition gemini_headers (api_key : string) : list (string * string) :=
  [("Content-Type", "application/json"); ("x-goog-api-key", api_key)].

(** The [for part in parts] loop (lines 81-93); its result is the triple
    [(img_b64, mime_type, source_used)], all [None] when no part breaks. *)
Fixpoint scan_parts (parts : list json) : M (json * json * json) :=
  match parts with
  | [] => ret (JNull, JNull, JNull)
  | part :: rest =>
      has_inline <- lift (py_contains "inlineData" part) ;;
      if has_inline then
        inl <- lift (py_getitem part "inlineData") ;;
        img_b64 <- lift (py_get inl "data" JNull) ;;
        inl' <- lift (py_getitem part "inlineData") ;;
        mime_type <- lift (py_get inl' "mimeType" JNull) ;;
        ret (img_b64, mime_type, JStr "inlineData")
      else
        has_file <- lift (py_contains "fileData" part) ;;
        if has_file then
          fd <- lift (py_getitem part "fileData") ;;
          file_uri <- lift (py_getitem fd "fileUri") ;;
          fd' <- lift (py_getitem part "fileData") ;;
          mime_type <- lift (py_get fd' "mimeType" (JStr "image/jpeg")) ;;
          r <- requests_get w file_uri ;;
          ret (JStr (b64encode (content r)), mime_type, JStr "fileData")
        else scan_parts rest
  end.

(** Lines 76-93: the parts of the first candidate, then the loop. *)
Definition extract_image (data : json) : M (json * json * json) :=
  cands <- lift (py_get data "candidates" (JArr [JObj []])) ;;
  cand0 <- lift (py_index0 cands) ;;
  cont <- lift (py_get cand0 "content" (JObj [])) ;;
  parts <- lift (py_get cont "parts" (JArr [])) ;;
  items <- lift (py_iter parts) ;;
  scan_parts items.

Definition result4 : Type := (string * option string * string * string)%type.

Definition msg_key_required : string := "❌ Error: API key required".
Definition msg_no_image : string := "⚠️ No image found in response".
Definition msg_success : string := "✅ Success".
Definition msg_api_error (code : Z) : string := "❌ API Error " ++ py_str_int code.
Definition msg_exception (e : string) : string := "❌ Exception: " ++ e.

(** Lines 95-115: the no-image exit, or saving the image and the metadata. *)
Definition finish_decode (data img_b64 mime_type source_used : json) : M result4 :=
  if negb (truthy img_b64) then
    ret (msg_no_image, None, "", json_dumps w data)
  else
    filename <- save_base64_to_jpeg img_b64 ;;
    bs <- read_file filename ;;
    let final_b64 := b64encode bs in
    let final_url := "/file=" ++ filename in
    model_version <- lift (py_get data "modelVersion" (JStr "unknown")) ;;
    response_id <- lift (py_get data "responseId" (JStr "unknown")) ;;
    let metadata := JObj [("modelVersion", model_version);
                          ("responseId", response_id);
                          ("mimeType", mime_type);
                          ("source", source_used);
                          ("finalImage", JStr final_url)] in
    ret (msg_success, Some filename, final_b64, json_dumps w metadata).

(** The body of the [try] block (lines 34-115); the debug [print]s of lines
    67-68 write to stdout only and are left out. *)
Definition gemini_body (api_key prompt : string) (influencer_img product_img : option string)
    : M result4 :=
  influencer_b64 <- lift (image_to_base64 influencer_img) ;;
  product_b64 <- lift (image_to_base64 product_img) ;;
  let payload := build_payload prompt influencer_b64 product_b64 in
  resp <- requests_post w gemini_url (gemini_headers api_key) payload ;;
  if negb (Z.eqb (status_code resp) 200) then
    body <- lift (json_loads w (text resp)) ;;
    ret (msg_api_error (status_code resp), None, "", json_dumps w body)
  else
    data <- lift (json_loads w (text resp)) ;;
    '(img_b64, mime_type, source_used) <- extract_image data ;;
    finish_decode data img_b64 mime_type source_used.

Definition on_exception (e : string) : M result4 :=
  ret (msg_exception e, None, "", "{}").

(** [gemini_generate] (lines 29-118). *)
Definition gemini_generate (api_key prompt : string)
    (influencer_img product_img : option string) : M result4 :=
  if String.eqb api_key "" then ret (msg_key_required, None, "", "{}")
  else try_except (gemini_body api_key prompt influencer_img product_img) on_exception.

End App.

(* ------------------------------------------------------------------ *)
(** ** A concrete world, used to run the handler on example inputs *)

Module Demo.

Definition quote : string := String (ascii_of_nat 34) EmptyString.
Definition newline : string := String (ascii_of_nat 10) EmptyString.

Fixpoint spaces (n : nat) : string :=
  match n with O => EmptyString | S k => "  " ++ spaces k end.

(** [json.dumps(v, indent=2)] on ASCII data without characters needing escapes. *)
Fixpoint dumps_at (lvl : nat) (v : json) : string :=
  let fix items (xs : list json) : string :=
    match xs with
    | [] => EmptyString
    | [x] => spaces (S lvl) ++ dumps_at (S lvl) x
    | x :: xs' => spaces (S lvl) ++ dumps_at (S lvl) x ++ "," ++ newline ++ items xs'
    end in
  let fix members (kvs : list (string * json)) : string :=
    match kvs with
    | [] => EmptyString
    | [(k, x)] => spaces (S lvl) ++ quote ++ k ++ quote ++ ": " ++ dumps_at (S lvl) x
    | (k, x) :: kvs' =>
        spaces (S lvl) ++ quote ++ k ++ quote ++ ": " ++ dumps_at (S lvl) x ++ ","
          ++ newline ++ members kvs'
    end in
  match v with
  | JNull => "null"
  | JBool true => "true"
  | JBool false => "false"
  | JNum n => py_str_int n
  | JStr s => quote ++ s ++ quote
  | JArr [] => "[]"
  | JArr xs => "[" ++ newline ++ items xs ++ newline ++ spaces lvl ++ "]"
  | JObj [] => "{}"
  | JObj kvs => "{" ++ newline ++ members kvs ++ newline ++ spaces lvl ++ "}"
  end.

Definition dumps (v : json) : string := dumps_at 0 v.

(** A minimal JPEG stream: SOI, an APP0 marker stub, EOI. *)
Definition jpeg_bytes : list Z := [255; 216; 255; 224; 0; 16; 255; 217].

Definition rgba_image : image := mk_image "RGBA" 2 2 [1; 2; 3; 4].

Definition open_path (f : option string) : outcome image :=
  match f with
  | Some _ => Ok rgba_image
  | None => Raise "'NoneType' object has no attribute 'read'"
  end.

Definition open_bytes (bs : list Z) : outcome image :=
  match bs with
  | 255 :: 216 :: _ => Ok (mk_image "RGB" 2 2 [1; 2; 3])
  | _ => Raise "cannot identify image file <_io.BytesIO object>"
  end.

Definition convert_rgb (im : image) : outcome image :=
  Ok (mk_image "RGB" (im_width im) (im_height im) (im_pixels im)).

Definition save_jpeg (im : image) : outcome (list Z) :=
  if String.eqb (im_mode im) "RGB" then Ok jpeg_bytes
  else Raise ("cannot write mode " ++ im_mode im ++ " as JPEG").

(** A world whose generation endpoint answers [post_resp], whose file server
    answers [get_resp], and whose [json.loads] knows the texts of [docs]. *)
Definition world (post_resp get_resp : outcome response)
    (docs : list (string * json)) : World :=
  mk_world open_path open_bytes convert_rgb save_jpeg
    (fun _ _ _ _ => post_resp) (fun _ _ => get_resp)
    (fun t => match find (fun d => String.eqb (fst d) t) docs with
              | Some d => Ok (snd d)
              | None => Raise "Expecting value: line 1 column 1 (char 0)"
              end)
    dumps (fun n => "a1b2c3" ++ py_str_int (Z.of_nat n)).

Definition st0 : St := mk_st [] [] 0.

(** Example responses of the generation endpoint. *)
Definition cand (parts : list json) : json := JObj [("content", JObj [("parts", JArr parts)])].
Definition part_text : json := JObj [("text", JStr "Here is your image")].
Definition part_file : json :=
  JObj [("fileData", JObj [("fileUri", JStr "https://files.example/gen.jpg")])].
Definition part_inline : json :=
  JObj [("inlineData", JObj [("mimeType", JStr "image/jpeg"); ("data", JStr "/9j/4AAQ/9k=")])].
Definition part_inline_empty : json :=
  JObj [("inlineData", JObj [("mimeType", JStr "image/png"); ("data", JStr "")])].

(** A first candidate with text then a file reference; a second with an inline image. *)
Definition doc_file : json :=
  JObj [("candidates", JArr [cand [part_text; part_file; part_inline]; cand [part_inline]])].
(** A first candidate with no parts. *)
Definition doc_empty : json :=
  JObj [("candidates", JArr [cand []; cand [part_inline]]); ("modelVersion", JStr "m-1")].
(** A first candidate whose first image part has an empty payload. *)
Definition doc_inline_empty : json :=
  JObj [("candidates", JArr [cand [part_text; part_inline_empty; part_inline]])].
(** A first candidate with an inline image. *)
Definition doc_inline : json :=
  JObj [("candidates", JArr [cand [part_inline]]); ("responseId", JStr "r-7")].

Definition ok_resp (t : string) : outcome response := Ok (mk_response 200 t []).
Definition docs : list (string * json) :=
  [("FILE", doc_file); ("EMPTY", doc_empty); ("INLINE0", doc_inline_empty);
   ("INLINE", doc_inline); ("ERR", JObj [("error", JObj [("code", JNum 400)])])].
Definition image_server : outcome response := Ok (mk_response 200 "" jpeg_bytes).

(** The worlds of the examples, named after the answer of the endpoint. *)
Definition w_file : World := world (ok_resp "FILE") image_server docs.
Definition w_empty : World := world (ok_resp "EMPTY") image_server docs.
Definition w_inline_empty : World := world (ok_resp "INLINE0") image_server docs.
Definition w_inline : World := world (ok_resp "INLINE") image_server docs.
Definition w_400 : World := world (Ok (mk_response 400 "ERR" [])) image_server docs.
Definition w_502_html : World :=
  world (Ok (mk_response 502 "<html><body>Bad Gateway</body></html>" [])) image_server docs.

End Demo.

(** Example responses for the edge paths of lines 76-93. *)
Module DemoEdge.

(** A first candidate whose only part carries both image keys. *)
Definition part_both : json :=
  JObj [("inlineData", JObj [("mimeType", JStr "image/jpeg"); ("data", JStr "/9j/4AAQ/9k=")]);
        ("fileData", JObj [("fileUri", JStr "https://files.example/gen.jpg")])].
(** A file reference without [fileUri]. *)
Definition part_no_uri : json := JObj [("fileData", JObj [("mimeType", JStr "image/png")])].

Definition docs : list (string * json) :=
  [("NOCAND", JObj [("modelVersion", JStr "m-2")]);
   ("EMPTYCAND", JObj [("candidates", JArr [])]);
   ("NOURI", JObj [("candidates", JArr [Demo.cand [Demo.part_text; part_no_uri]])]);
   ("LIST", JArr [JNum 1]);
   ("BOTH", JObj [("candidates", JArr [Demo.cand [part_both]])])].

Definition w_of (t : string) : World := Demo.world (Demo.ok_resp t) Demo.image_server docs.

End DemoEdge.

(* ------------------------------------------------------------------ *)
(** ** Auxiliary notions used by the proofs *)

(** A computation that leaves the working directory alone. *)
Definition keeps_files {A} (m : M A) : Prop := forall st, files (snd (m st)) = files st.

(** The state right after the generation POST. *)
Definition after_post (st : St) (c : call) : St :=
  mk_st (calls st ++ [c])%list (files st) (uuids st).

(** The 256 byte values. *)
Definition all_bytes : list Z := map Z.of_nat (seq 0 256).

(** The metadata record with the defaults of lines 108-109. *)
Definition or_unknown (o : option json) : json :=
  match o with Some v => v | None => JStr "unknown" end.


(** [k in d] for a dict [d]. *)
Definition has_key (k : string) (kvs : list (string * json)) : bool :=
  match obj_lookup k kvs with Some _ => true | None => false end.

(** A response part that is a dict carrying neither [inlineData] nor [fileData]. *)
Definition plain_part (p : json) : bool :=
  match p with
  | JObj kvs => negb (has_key "inlineData" kvs) && negb (has_key "fileData" kvs)
  | _ => false
  end.

(** A response part that is a dict carrying [inlineData] or [fileData]. *)
Definition image_part (p : json) : bool :=
  match p with
  | JObj kvs => has_key "inlineData" kvs || has_key "fileData" kvs
  | _ => false
  end.

(** A JPEG byte stream: 8-bit values, SOI marker first, EOI marker last. *)
Definition jpeg_stream (bs : list Z) : bool :=
  forallb (fun b => (0 <=? b) && (b <? 256)) bs
  && (4 <=? Z.of_nat (List.length bs))
  && match bs with 255 :: 216 :: _ => true | _ => false end
  && match rev bs with 217 :: 255 :: _ => true | _ => false end.

(** The value of a string of decimal digits, read left to right from [v]. *)
Fixpoint dec_val (v : Z) (s : string) : Z :=
  match s with
  | EmptyString => v
  | String c s' => dec_val (10 * v + (Z.of_nat (nat_of_ascii c) - 48)) s'
  end.

(* ------------------------------------------------------------------ *)
(** ** Proofs *)

Example b64encode_hello : b64encode [72; 105] = "SGk=".
Proof. reflexivity. Qed.
Example b64decode_hello : b64decode (JStr "SGk=") = Ok [72; 105].
Proof. reflexivity. Qed.
Example b64decode_lenient : b64decode (JStr "S G k = xyz") = Ok [72; 105].
Proof. reflexivity. Qed.
Example py_str_int_404 : py_str_int 404 = "404".
Proof. reflexivity. Qed.

(** *** Base64 round trip *)

Section Base64RoundTrip.

Lemma all_bytes_spec (b : Z) : byte_ok b -> In b all_bytes.
Proof.
  intros [H0 H1]. unfold all_bytes. apply in_map_iff.
  exists (Z.to_nat b). split; [lia|]. apply in_seq. lia.
Qed.

Lemma byte_check1 (P : Z -> bool) :
  forallb P all_bytes = true -> forall b, byte_ok b -> P b = true.
Proof.
  intros H b Hb. rewrite forallb_forall in H. apply H, all_bytes_spec, Hb.
Qed.

Lemma byte_check2 (P : Z -> Z -> bool) :
  forallb (fun a => forallb (P a) all_bytes) all_bytes = true ->
  forall a b, byte_ok a -> byte_ok b -> P a b = true.
Proof.
  intros H a b Ha Hb.
  apply (byte_check1 (fun a => forallb (P a) all_bytes)) in Ha; [|exact H].
  rewrite forallb_forall in Ha. apply Ha, all_bytes_spec, Hb.
Qed.

Ltac by_bytes1 P := intros;
  apply Z.eqb_eq; apply (byte_check1 P); [vm_compute; reflexivity | assumption].
Ltac by_bytes2 P := intros;
  apply Z.eqb_eq; apply (byte_check2 P); [vm_compute; reflexivity | assumption ..].

Lemma b64_val_char (n : Z) : 0 <= n < 64 -> b64_val (b64_char n) = n.
Proof.
  intros H. assert (Hb : byte_ok n) by (unfold byte_ok; lia).
  assert (E : (negb (n <? 64) || (b64_val (b64_char n) =? n)) = true).
  { apply (byte_check1 (fun n => negb (n <? 64) || (b64_val (b64_char n) =? n))).
    - vm_compute. reflexivity.
    - exact Hb. }
  apply orb_true_iff in E as [E | E].
  - apply negb_true_iff, Z.ltb_ge in E. lia.
  - apply Z.eqb_eq, E.
Qed.

Lemma b64_char_not_pad (n : Z) : 0 <= n < 64 -> Ascii.eqb (b64_char n) "="%char = false.
Proof.
  intros H. assert (Hb : byte_ok n) by (unfold byte_ok; lia).
  assert (E : (negb (n <? 64) || negb (Ascii.eqb (b64_char n) "="%char)) = true).
  { apply (byte_check1 (fun n => negb (n <? 64) || negb (Ascii.eqb (b64_char n) "="%char))).
    - vm_compute. reflexivity.
    - exact Hb. }
  apply orb_true_iff in E as [E | E].
  - apply negb_true_iff, Z.ltb_ge in E. lia.
  - apply negb_true_iff, E.
Qed.

(** Ranges of the sextets produced by the encoder. *)
Lemma sext0 (a : Z) : byte_ok a -> 0 <= Z.shiftr a 2 < 64.
Proof.
  intros H. rewrite Z.shiftr_div_pow2 by lia. change (2 ^ 2) with 4.
  unfold byte_ok in H. split; [apply Z.div_pos | apply Z.div_lt_upper_bound]; lia.
Qed.

Lemma sext1 (a b : Z) : byte_ok a -> byte_ok b ->
  0 <= Z.lor (Z.shiftl (Z.land a 3) 4) (Z.shiftr b 4) < 64.
Proof.
  intros Ha Hb.
  assert (E : ((0 <=? Z.lor (Z.shiftl (Z.land a 3) 4) (Z.shiftr b 4)) &&
               (Z.lor (Z.shiftl (Z.land a 3) 4) (Z.shiftr b 4) <? 64)) = true).
  { apply (byte_check2 (fun a b => (0 <=? Z.lor (Z.shiftl (Z.land a 3) 4) (Z.shiftr b 4)) &&
               (Z.lor (Z.shiftl (Z.land a 3) 4) (Z.shiftr b 4) <? 64))); [vm_compute; reflexivity | assumption | assumption]. }
  apply andb_true_iff in E as [E1 E2]. apply Z.leb_le in E1. apply Z.ltb_lt in E2. lia.
Qed.

Lemma sext2 (a b : Z) : byte_ok a -> byte_ok b ->
  0 <= Z.lor (Z.shiftl (Z.land a 15) 2) (Z.shiftr b 6) < 64.
Proof.
  intros Ha Hb.
  assert (E : ((0 <=? Z.lor (Z.shiftl (Z.land a 15) 2) (Z.shiftr b 6)) &&
               (Z.lor (Z.shiftl (Z.land a 15) 2) (Z.shiftr b 6) <? 64)) = true).
  { apply (byte_check2 (fun a b => (0 <=? Z.lor (Z.shiftl (Z.land a 15) 2) (Z.shiftr b 6)) &&
               (Z.lor (Z.shiftl (Z.land a 15) 2) (Z.shiftr b 6) <? 64))); [vm_compute; reflexivity | assumption | assumption]. }
  apply andb_true_iff in E as [E1 E2]. apply Z.leb_le in E1. apply Z.ltb_lt in E2. lia.
Qed.

Lemma sext3 (a : Z) : byte_ok a -> 0 <= Z.land a 63 < 64.
Proof. intros H. change 63 with (Z.ones 6). rewrite (Z.land_ones a 6) by lia. change (2 ^ 6) with 64. apply Z.mod_pos_bound. lia. Qed.

Lemma sext1' (a : Z) : byte_ok a -> 0 <= Z.shiftl (Z.land a 3) 4 < 64.
Proof.
  intros H. change 3 with (Z.ones 2). rewrite (Z.land_ones a 2) by lia. rewrite Z.shiftl_mul_pow2 by lia.
  change (2 ^ 2) with 4. change (2 ^ 4) with 16.
  pose proof (Z.mod_pos_bound a 4). lia.
Qed.

Lemma sext2' (a : Z) : byte_ok a -> 0 <= Z.shiftl (Z.land a 15) 2 < 64.
Proof.
  intros H. change 15 with (Z.ones 4). rewrite (Z.land_ones a 4) by lia. rewrite Z.shiftl_mul_pow2 by lia.
  change (2 ^ 4) with 16. change (2 ^ 2) with 4.
  pose proof (Z.mod_pos_bound a 16). lia.
Qed.

(** Recombination of the sextets by the decoder. *)
Lemma recomb1 (a b : Z) : byte_ok a -> byte_ok b ->
  Z.land (Z.lor (Z.shiftl (Z.shiftr a 2) 2)
                (Z.shiftr (Z.lor (Z.shiftl (Z.land a 3) 4) (Z.shiftr b 4)) 4)) 255 = a.
Proof.
  by_bytes2 (fun a b => Z.land (Z.lor (Z.shiftl (Z.shiftr a 2) 2)
                (Z.shiftr (Z.lor (Z.shiftl (Z.land a 3) 4) (Z.shiftr b 4)) 4)) 255 =? a).
Qed.

Lemma left1 (a b : Z) : byte_ok a -> byte_ok b ->
  Z.land (Z.lor (Z.shiftl (Z.land a 3) 4) (Z.shiftr b 4)) 15 = Z.shiftr b 4.
Proof.
  by_bytes2 (fun a b =>
    Z.land (Z.lor (Z.shiftl (Z.land a 3) 4) (Z.shiftr b 4)) 15 =? Z.shiftr b 4).
Qed.

Lemma recomb2 (b c : Z) : byte_ok b -> byte_ok c ->
  Z.land (Z.lor (Z.shiftl (Z.shiftr b 4) 4)
                (Z.shiftr (Z.lor (Z.shiftl (Z.land b 15) 2) (Z.shiftr c 6)) 2)) 255 = b.
Proof.
  by_bytes2 (fun b c => Z.land (Z.lor (Z.shiftl (Z.shiftr b 4) 4)
                (Z.shiftr (Z.lor (Z.shiftl (Z.land b 15) 2) (Z.shiftr c 6)) 2)) 255 =? b).
Qed.

Lemma left2 (b c : Z) : byte_ok b -> byte_ok c ->
  Z.land (Z.lor (Z.shiftl (Z.land b 15) 2) (Z.shiftr c 6)) 3 = Z.shiftr c 6.
Proof.
  by_bytes2 (fun b c =>
    Z.land (Z.lor (Z.shiftl (Z.land b 15) 2) (Z.shiftr c 6)) 3 =? Z.shiftr c 6).
Qed.

Lemma recomb3 (c : Z) : byte_ok c ->
  Z.land (Z.lor (Z.shiftl (Z.shiftr c 6) 6) (Z.land c 63)) 255 = c.
Proof.
  by_bytes1 (fun c => Z.land (Z.lor (Z.shiftl (Z.shiftr c 6) 6) (Z.land c 63)) 255 =? c).
Qed.

Lemma recomb1_tail (a : Z) : byte_ok a ->
  Z.land (Z.lor (Z.shiftl (Z.shiftr a 2) 2) (Z.shiftr (Z.shiftl (Z.land a 3) 4) 4)) 255 = a.
Proof.
  by_bytes1 (fun a =>
    Z.land (Z.lor (Z.shiftl (Z.shiftr a 2) 2) (Z.shiftr (Z.shiftl (Z.land a 3) 4) 4)) 255 =? a).
Qed.

Lemma recomb2_tail (b : Z) : byte_ok b ->
  Z.land (Z.lor (Z.shiftl (Z.shiftr b 4) 4) (Z.shiftr (Z.shiftl (Z.land b 15) 2) 2)) 255 = b.
Proof.
  by_bytes1 (fun b =>
    Z.land (Z.lor (Z.shiftl (Z.shiftr b 4) 4) (Z.shiftr (Z.shiftl (Z.land b 15) 2) 2)) 255 =? b).
Qed.

(** Feeding the decoder the character of a sextet [x]. *)
Lemma a2b_loop_sextet (s : a2b_state) (x : Z) (cs : list ascii) :
  0 <= x < 64 -> a2b_loop s (b64_char x :: cs) = a2b_loop (a2b_data s x) cs.
Proof.
  intros H. cbn [a2b_loop]. rewrite (b64_char_not_pad x H), (b64_val_char x H).
  replace (64 <=? x) with false by (symmetry; apply Z.leb_gt; lia). reflexivity.
Qed.

Lemma a2b_loop_encode (n : nat) (bs : list Z) (lc : Z) (p : nat) (acc : list Z) :
  (List.length bs <= n)%nat -> Forall byte_ok bs ->
  exists d s, a2b_loop (mk_a2b 0 lc p acc) (b64_encode_bytes bs) = (d, s)
    /\ out s = (rev bs ++ acc)%list /\ (d = false -> quad_pos s = 0%nat).
Proof.
  revert bs lc p acc. induction n as [|n IH]; intros bs lc p acc Hn Hok.
  - destruct bs; [|cbn in Hn; lia].
    exists false, (mk_a2b 0 lc p acc). auto.
  - destruct bs as [|b1 [|b2 [|b3 rest]]].
    + exists false, (mk_a2b 0 lc p acc). auto.
    + inversion Hok as [|? ? H1 _]; subst.
      cbn [b64_encode_bytes].
      rewrite a2b_loop_sextet by (apply sext0; exact H1).
      rewrite a2b_loop_sextet by (apply sext1'; exact H1).
      cbn [a2b_data quad_pos leftchar out pads]. rewrite (recomb1_tail b1 H1). cbn.
      eexists _, _. split; [reflexivity|]. split; [reflexivity|]. discriminate.
    + inversion Hok as [|? ? H1 Hok2]; subst. inversion Hok2 as [|? ? H2 _]; subst.
      cbn [b64_encode_bytes].
      rewrite a2b_loop_sextet by (apply sext0; exact H1).
      rewrite a2b_loop_sextet by (apply sext1; assumption).
      rewrite a2b_loop_sextet by (apply sext2'; exact H2).
      cbn [a2b_data quad_pos leftchar out pads].
      rewrite (recomb1 b1 b2 H1 H2), (left1 b1 b2 H1 H2), (recomb2_tail b2 H2). cbn.
      eexists _, _. split; [reflexivity|]. split; [reflexivity|]. discriminate.
    + inversion Hok as [|? ? H1 Hok2]; subst. inversion Hok2 as [|? ? H2 Hok3]; subst.
      inversion Hok3 as [|? ? H3 Hok4]; subst.
      cbn [b64_encode_bytes].
      rewrite a2b_loop_sextet by (apply sext0; exact H1).
      rewrite a2b_loop_sextet by (apply sext1; assumption).
      rewrite a2b_loop_sextet by (apply sext2; assumption).
      rewrite a2b_loop_sextet by (apply sext3; exact H3).
      cbn [a2b_data quad_pos leftchar out pads].
      rewrite (recomb1 b1 b2 H1 H2), (left1 b1 b2 H1 H2), (recomb2 b2 b3 H2 H3),
        (left2 b2 b3 H2 H3), (recomb3 b3 H3).
      destruct (IH rest 0 0%nat (b3 :: b2 :: b1 :: acc)) as (d & s & E & Eo & Eq);
        [cbn in Hn; lia | exact Hok4 |].
      exists d, s. split; [exact E|]. split; [|exact Eq].
      rewrite Eo. cbn. rewrite <- !app_assoc. reflexivity.
Qed.

Lemma b64_char_ascii (x : Z) : 0 <= x < 64 -> (nat_of_ascii (b64_char x) <? 128)%nat = true.
Proof.
  intros H. assert (Hb : byte_ok x) by (unfold byte_ok; lia).
  assert (E : (negb (x <? 64) || (nat_of_ascii (b64_char x) <? 128)%nat) = true).
  { apply (byte_check1 (fun x => negb (x <? 64) || (nat_of_ascii (b64_char x) <? 128)%nat)).
    - vm_compute. reflexivity.
    - exact Hb. }
  apply orb_true_iff in E as [E | E]; [apply negb_true_iff, Z.ltb_ge in E; lia | exact E].
Qed.

Lemma encode_ascii (n : nat) (bs : list Z) :
  (List.length bs <= n)%nat -> Forall byte_ok bs ->
  forall c, In c (b64_encode_bytes bs) -> (nat_of_ascii c <? 128)%nat = true.
Proof.
  revert bs. induction n as [|n IH]; intros bs Hn Hok c Hc.
  - destruct bs; [destruct Hc | cbn in Hn; lia].
  - destruct bs as [|b1 [|b2 [|b3 rest]]]; [destruct Hc| | |].
    + inversion Hok as [|? ? H1 _]; subst.
      destruct Hc as [<-|[<-|[<-|[<-|[]]]]]; try reflexivity.
      * apply b64_char_ascii, sext0, H1.
      * apply b64_char_ascii, sext1', H1.
    + inversion Hok as [|? ? H1 Hok2]; subst. inversion Hok2 as [|? ? H2 _]; subst.
      destruct Hc as [<-|[<-|[<-|[<-|[]]]]]; try reflexivity.
      * apply b64_char_ascii, sext0, H1.
      * apply b64_char_ascii, sext1; assumption.
      * apply b64_char_ascii, sext2', H2.
    + inversion Hok as [|? ? H1 Hok2]; subst. inversion Hok2 as [|? ? H2 Hok3]; subst.
      inversion Hok3 as [|? ? H3 Hok4]; subst.
      destruct Hc as [<-|[<-|[<-|[<-|Hc]]]].
      * apply b64_char_ascii, sext0, H1.
      * apply b64_char_ascii, sext1; assumption.
      * apply b64_char_ascii, sext2; assumption.
      * apply b64_char_ascii, sext3, H3.
      * apply (IH rest); [cbn in Hn; lia | exact Hok4 | exact Hc].
Qed.

(** Decoding what [b64encode] produced gives the bytes back. *)
Lemma b64decode_b64encode (bs : list Z) :
  Forall byte_ok bs -> b64decode (JStr (b64encode bs)) = Ok bs.
Proof.
  intros Hok. unfold b64decode, b64encode. rewrite list_ascii_of_string_of_list_ascii.
  replace (forallb _ _) with true.
  2:{ symmetry. apply forallb_forall. intros c Hc.
       apply (encode_ascii (List.length bs) bs (le_n _) Hok), Hc. }
  unfold a2b_base64, a2b_init.
  destruct (a2b_loop_encode (List.length bs) bs 0 0%nat [] (le_n _) Hok) as (d & s & E & Eo & Eq).
  rewrite E. rewrite Eo, app_nil_r, rev_involutive.
  destruct d; [reflexivity|]. rewrite (Eq eq_refl). reflexivity.
Qed.

End Base64RoundTrip.

(* ------------------------------------------------------------------ *)
(** ** Reasoning about the monad *)

Section MonadFacts.

Lemma bind_ok_inv {A B} (m : M A) (f : A -> M B) st b st' :
  bind m f st = (Ok b, st') -> exists a st1, m st = (Ok a, st1) /\ f a st1 = (Ok b, st').
Proof.
  unfold bind. destruct (m st) as [[a|e] st1]; intros H; [eauto | discriminate].
Qed.

Lemma bind_raise_inv {A B} (m : M A) (f : A -> M B) st e st' :
  bind m f st = (Raise e, st') ->
  m st = (Raise e, st') \/ exists a st1, m st = (Ok a, st1) /\ f a st1 = (Raise e, st').
Proof.
  unfold bind. destruct (m st) as [[a|e'] st1]; intros H; [eauto | inversion H; subst; auto].
Qed.


Lemma keeps_files_bind {A B} (m : M A) (f : A -> M B) :
  keeps_files m -> (forall a, keeps_files (f a)) -> keeps_files (bind m f).
Proof.
  intros Hm Hf st. unfold bind. specialize (Hm st).
  destruct (m st) as [[a|e] st1] eqn:E; cbn in *; [rewrite Hf; exact Hm | exact Hm].
Qed.

Lemma keeps_files_ret {A} (a : A) : keeps_files (ret a).
Proof. intros st. reflexivity. Qed.

Lemma keeps_files_lift {A} (o : outcome A) : keeps_files (lift o).
Proof. intros st. reflexivity. Qed.

Lemma keeps_files_get (w : World) uri : keeps_files (requests_get w uri).
Proof. intros st. reflexivity. Qed.

End MonadFacts.

Create HintDb app_files.
#[export] Hint Resolve keeps_files_bind keeps_files_ret keeps_files_lift keeps_files_get
  : app_files.

Section Pipeline.

Variable w : World.


Lemma scan_parts_keeps_files (parts : list json) : keeps_files (scan_parts w parts).
Proof.
  induction parts as [|part rest IH]; cbn [scan_parts]; [auto with app_files|].
  apply keeps_files_bind; [auto with app_files|]. intros []; auto 10 with app_files.
  apply keeps_files_bind; [auto with app_files|]. intros []; auto 20 with app_files.
Qed.

Lemma extract_image_keeps_files (data : json) : keeps_files (extract_image w data).
Proof.
  unfold extract_image. repeat (apply keeps_files_bind; [auto with app_files|]; intros).
  apply scan_parts_keeps_files.
Qed.

(** [data.get("candidates", ...)] succeeded, so [data] is a dict. *)
Lemma extract_image_ok_obj (data : json) st x st' :
  extract_image w data st = (Ok x, st') -> exists kvs, data = JObj kvs.
Proof.
  unfold extract_image. intros H. apply bind_ok_inv in H as (a & st1 & H & _).
  destruct data; cbn in H; try discriminate. eauto.
Qed.

Ltac run_step :=
  match goal with
  | |- context [match ?o with Ok _ => _ | Raise _ => _ end] =>
      let E := fresh "E" in destruct o eqn:E
  | H : context [match ?o with Ok _ => _ | Raise _ => _ end] |- _ =>
      let E := fresh "E" in destruct o eqn:E
  end.

Lemma py_get_obj (kvs : list (string * json)) k d :
  py_get (JObj kvs) k d = Ok (match obj_lookup k kvs with Some v => v | None => d end).
Proof. cbn. destruct (obj_lookup k kvs); reflexivity. Qed.


Lemma finish_decode_cases (kvs : list (string * json)) img mime src st r st' :
  finish_decode w (JObj kvs) img mime src st = (r, st') ->
  (truthy img = false /\ r = Ok (msg_no_image, None, "", json_dumps w (JObj kvs)) /\ st' = st)
  \/ (exists e, r = Raise e /\ files st' = files st /\ calls st' = calls st)
  \/ (exists fname bs,
        r = Ok (msg_success, Some fname, b64encode bs,
                json_dumps w (JObj [("modelVersion", or_unknown (obj_lookup "modelVersion" kvs));
                                    ("responseId", or_unknown (obj_lookup "responseId" kvs));
                                    ("mimeType", mime);
                                    ("source", src);
                                    ("finalImage", JStr ("/file=" ++ fname))]))
        /\ files st' = (fname, bs) :: files st
        /\ calls st' = calls st).
Proof.
  unfold finish_decode. destruct (truthy img) eqn:Ht; cbn [negb].
  2:{ intros H. inversion H; subst. left. auto. }
  intros H. right. rewrite !py_get_obj in H.
  unfold save_base64_to_jpeg, bind, lift, ret, uuid4, write_file, read_file in H.
  repeat (run_step; cbn in H;
          try (inversion H; subst; left; eexists; split; [reflexivity | split; reflexivity])).
  rewrite String.eqb_refl in H. cbn in H.
  right. inversion H; subst. do 2 eexists. split; [|split; reflexivity].
  reflexivity.
Qed.

Lemma success_ne_api_error code : msg_success <> msg_api_error code.
Proof. unfold msg_success, msg_api_error. cbn. discriminate. Qed.

Lemma success_ne_exception e : msg_success <> msg_exception e.
Proof. unfold msg_success, msg_exception. cbn. discriminate. Qed.

Lemma success_ne_no_image : msg_success <> msg_no_image.
Proof. discriminate. Qed.

Lemma success_ne_key_required : msg_success <> msg_key_required.
Proof. discriminate. Qed.

Ltac simp_in H :=
  cbn -[extract_image finish_decode gemini_url gemini_headers build_payload
         msg_api_error msg_success msg_no_image msg_exception msg_key_required] in H.

Ltac raise_case H := simp_in H; inversion H; subst.

(** Every run of the [try] body either raises, answers the API error, or
    hands a dict to [extract_image] and [finish_decode]. *)
Lemma gemini_body_cases (api_key prompt : string) i1 i2 st r st' :
  gemini_body w api_key prompt i1 i2 st = (r, st') ->
  (exists e, r = Raise e /\ files st' = files st)
  \/ (exists b1 b2 resp,
        image_to_base64 w i1 = Ok b1 /\ image_to_base64 w i2 = Ok b2 /\
        http_post w (calls st) gemini_url (gemini_headers api_key)
          (build_payload prompt b1 b2) = Ok resp /\
        let st1 := after_post st (Post gemini_url (gemini_headers api_key)
                                   (build_payload prompt b1 b2)) in
        ((Z.eqb (status_code resp) 200 = false /\
          exists j, json_loads w (text resp) = Ok j /\
            r = Ok (msg_api_error (status_code resp), None, "", json_dumps w j) /\ st' = st1)
         \/ (Z.eqb (status_code resp) 200 = true /\
             exists kvs img mime src st2,
               json_loads w (text resp) = Ok (JObj kvs) /\
               extract_image w (JObj kvs) st1 = (Ok (img, mime, src), st2) /\
               files st2 = files st /\
               finish_decode w (JObj kvs) img mime src st2 = (r, st')))).
Proof.
  unfold gemini_body. intros H.
  destruct (image_to_base64 w i1) as [b1|e] eqn:E1;
    [| raise_case H; left; eauto].
  destruct (image_to_base64 w i2) as [b2|e] eqn:E2;
    [| raise_case H; left; eauto].
  simp_in H.
  destruct (http_post w (calls st) gemini_url (gemini_headers api_key)
              (build_payload prompt b1 b2)) as [resp|e] eqn:E3;
    [| raise_case H; left; eauto].
  simp_in H.
  destruct (Z.eqb (status_code resp) 200) eqn:E4; simp_in H.
  - destruct (json_loads w (text resp)) as [data|e] eqn:E5;
      [| raise_case H; left; eauto].
    simp_in H.
    set (st1 := after_post st (Post gemini_url (gemini_headers api_key)
                                (build_payload prompt b1 b2))) in *.
    change {| calls := (calls st ++ [Post gemini_url (gemini_headers api_key)
                                       (build_payload prompt b1 b2)])%list;
              files := files st; uuids := uuids st |} with st1 in H.
    pose proof (extract_image_keeps_files data st1) as Hk.
    unfold bind at 1 in H.
    destruct (extract_image w data st1) as [[[[img mime] src]|e] st2] eqn:E6; simp_in H.
    + destruct (extract_image_ok_obj data st1 _ st2 E6) as [kvs ->].
      right. exists b1, b2, resp. do 3 (split; [reflexivity || assumption|]).
      right. split; [exact E4|]. exists kvs, img, mime, src, st2.
      cbn in Hk. auto.
    + inversion H; subst. left. exists e. split; [reflexivity|]. exact Hk.
  - destruct (json_loads w (text resp)) as [j|e] eqn:E5;
      [| raise_case H; left; eauto].
    inversion H; subst. right. exists b1, b2, resp.
    do 3 (split; [reflexivity || assumption|]). left. eauto.
Qed.

Lemma py_contains_obj (k : string) (kvs : list (string * json)) :
  py_contains k (JObj kvs) = Ok (has_key k kvs).
Proof. reflexivity. Qed.

(** Dicts without image keys are stepped over by the loop. *)
Lemma scan_parts_skip (l1 rest : list json) st :
  forallb plain_part l1 = true -> scan_parts w (l1 ++ rest) st = scan_parts w rest st.
Proof.
  induction l1 as [|p l1 IH]; intros Hl; [reflexivity|].
  cbn [forallb] in Hl. apply andb_true_iff in Hl as [Hp Hl].
  destruct p as [| | | | |kvs]; try discriminate.
  cbn [plain_part] in Hp. apply andb_true_iff in Hp as [Hi Hf].
  apply negb_true_iff in Hi, Hf.
  cbn [app scan_parts]. unfold bind at 1, lift at 1. rewrite py_contains_obj, Hi.
  unfold bind at 1, lift at 1. rewrite py_contains_obj, Hf.
  apply IH, Hl.
Qed.

(** The loop stops at the first part carrying an image key. *)
Lemma scan_parts_break (p : json) (l2 : list json) st :
  image_part p = true -> scan_parts w (p :: l2) st = scan_parts w [p] st.
Proof.
  intros Hp. destruct p as [| | | | |kvs]; try discriminate.
  cbn [image_part] in Hp. cbn [scan_parts]. unfold bind at 1 3, lift at 1 2.
  rewrite py_contains_obj.
  destruct (has_key "inlineData" kvs) eqn:Hi; [reflexivity|].
  unfold bind at 1 3, lift at 1 2. rewrite py_contains_obj.
  cbn in Hp. rewrite Hp. reflexivity.
Qed.

(** The path through lines 76-79 to the parts of the first candidate. *)
Lemma extract_image_parts (data c0 cont : json) (others parts : list json) st :
  py_get data "candidates" (JArr [JObj []]) = Ok (JArr (c0 :: others)) ->
  py_get c0 "content" (JObj []) = Ok cont ->
  py_get cont "parts" (JArr []) = Ok (JArr parts) ->
  extract_image w data st = scan_parts w parts st.
Proof.
  intros H1 H2 H3. unfold extract_image, bind, lift at 1 2 3 4 5.
  rewrite H1. cbn [py_index0]. rewrite H2, H3. reflexivity.
Qed.

(** The run of the [try] body on a 200 answer whose text parses. *)
Lemma gemini_body_200 (api_key prompt : string) i1 i2 st b1 b2 resp data :
  image_to_base64 w i1 = Ok b1 -> image_to_base64 w i2 = Ok b2 ->
  http_post w (calls st) gemini_url (gemini_headers api_key)
    (build_payload prompt b1 b2) = Ok resp ->
  status_code resp = 200 ->
  json_loads w (text resp) = Ok data ->
  gemini_body w api_key prompt i1 i2 st
  = match extract_image w data
            (after_post st (Post gemini_url (gemini_headers api_key)
                              (build_payload prompt b1 b2))) with
    | (Ok (img, mime, src), st2) => finish_decode w data img mime src st2
    | (Raise e, st2) => (Raise e, st2)
    end.
Proof.
  intros E1 E2 E3 E4 E5. unfold gemini_body, bind at 1 2 3, lift at 1 2.
  rewrite E1, E2. unfold requests_post. rewrite E3, E4. cbn [Z.eqb negb].
  unfold bind at 1, lift at 1. rewrite E5. unfold bind, after_post.
  cbn -[extract_image finish_decode].
  destruct (extract_image w data _) as [[[[? ?] ?]|?] ?]; reflexivity.
Qed.

(** The run of the [try] body on a non-200 answer. *)
Lemma gemini_body_not_200 (api_key prompt : string) i1 i2 st b1 b2 resp :
  image_to_base64 w i1 = Ok b1 -> image_to_base64 w i2 = Ok b2 ->
  http_post w (calls st) gemini_url (gemini_headers api_key)
    (build_payload prompt b1 b2) = Ok resp ->
  status_code resp <> 200 ->
  gemini_body w api_key prompt i1 i2 st
  = (match json_loads w (text resp) with
     | Ok j => Ok (msg_api_error (status_code resp), None, "", json_dumps w j)
     | Raise e => Raise e
     end,
     after_post st (Post gemini_url (gemini_headers api_key) (build_payload prompt b1 b2))).
Proof.
  intros E1 E2 E3 E4. unfold gemini_body, bind at 1 2 3, lift at 1 2.
  rewrite E1, E2. unfold requests_post. rewrite E3.
  apply Z.eqb_neq in E4. rewrite E4. cbn [negb].
  unfold bind, lift, ret, after_post. destruct (json_loads w (text resp)); reflexivity.
Qed.

End Pipeline.

(** *** [save_base64_to_jpeg] *)

Section SaveFacts.

Variable w : World.

Ltac run_in H :=
  repeat match type of H with
  | context [match ?o with Ok _ => _ | Raise _ => _ end] =>
      let E := fresh "E" in destruct o eqn:E; cbn in H
  end.

Lemma save_base64_to_jpeg_inv (b64_data : json) st filename st' :
  save_base64_to_jpeg w b64_data st = (Ok filename, st') ->
  exists img_bytes img0 img bs,
    b64decode b64_data = Ok img_bytes /\
    pil_open_bytes w img_bytes = Ok img0 /\
    pil_convert_rgb w img0 = Ok img /\
    pil_save_jpeg w img = Ok bs /\
    filename = "generated_" ++ uuid4_hex w (uuids st) ++ ".jpeg" /\
    st' = mk_st (calls st) ((filename, bs) :: files st) (S (uuids st)).
Proof.
  unfold save_base64_to_jpeg, bind, lift, ret, uuid4, write_file. intros H.
  run_in H; try discriminate. inversion H; subst. do 4 eexists. eauto 10.
Qed.

End SaveFacts.

(* ------------------------------------------------------------------ *)
(** ** The claims *)

(** C1: with an empty API key, [gemini_generate] returns the
    configuration-error status, no image, an empty base64 output and ["{}"],
    and the state is untouched: no HTTP request (POST or GET) is issued and
    no file is written. *)
Theorem gemini_generate_missing_key (w : World) (prompt : string)
    (influencer_img product_img : option string) (st : St) :
  gemini_generate w "" prompt influencer_img product_img st
  = (Ok (msg_key_required, None, "", "{}"), st).
Proof. reflexivity. Qed.

(** C4: [gemini_generate] never raises, whatever the libraries, the network
    and the response do; an exception of the [try] body becomes the status
    ["❌ Exception: " ++ str(e)] with no image, an empty base64 output and
    ["{}"]. *)
Theorem gemini_generate_never_raises (w : World) (api_key prompt : string)
    (influencer_img product_img : option string) (st : St) :
  (exists t st', gemini_generate w api_key prompt influencer_img product_img st = (Ok t, st'))
  /\ (forall e st', api_key <> "" ->
        gemini_body w api_key prompt influencer_img product_img st = (Raise e, st') ->
        gemini_generate w api_key prompt influencer_img product_img st
        = (Ok (msg_exception e, None, "", "{}"), st')).
Proof.
  unfold gemini_generate. split.
  - destruct (String.eqb api_key "").
    + eexists _, _. reflexivity.
    + unfold try_except.
      destruct (gemini_body w api_key prompt influencer_img product_img st) as [[t|e] st'].
      * eexists _, _. reflexivity.
      * eexists _, _. reflexivity.
  - intros e st' Hk Hb. apply String.eqb_neq in Hk. rewrite Hk.
    unfold try_except. rewrite Hb. reflexivity.
Qed.

(** C10: every run returns a normal 4-tuple, and unless the status is the
    success status the image slot is [None], the base64 output is empty and
    no file has been written. *)
Theorem gemini_generate_error_outputs_empty (w : World) (api_key prompt : string)
    (influencer_img product_img : option string) (st : St) :
  exists status img b64 meta st',
    gemini_generate w api_key prompt influencer_img product_img st
    = (Ok (status, img, b64, meta), st')
    /\ (status <> msg_success -> img = None /\ b64 = "" /\ files st' = files st).
Proof.
  unfold gemini_generate. destruct (String.eqb api_key "").
  { do 5 eexists. split; [reflexivity|]. auto. }
  unfold try_except.
  destruct (gemini_body w api_key prompt influencer_img product_img st) as [r st'] eqn:Eb.
  apply gemini_body_cases in Eb.
  destruct r as [[[[s i] b] m]|e].
  - do 5 eexists. split; [reflexivity|]. intros Hs.
    destruct Eb as [(e & He & _) | (b1 & b2 & resp & _ & _ & _ & [Hapi | Hfin])];
      [discriminate|..].
    + destruct Hapi as (_ & j & _ & Hr & ->). inversion Hr; subst. auto.
    + destruct Hfin as (_ & kvs & img & mime & src & st2 & _ & _ & Hf2 & Hfd).
      apply finish_decode_cases in Hfd.
      destruct Hfd as [(_ & Hr & ->) | [(e & He & _) | (fname & bs & Hr & _)]].
      * inversion Hr; subst. auto.
      * discriminate.
      * inversion Hr; subst. contradiction Hs. reflexivity.
  - cbn. do 5 eexists. split; [reflexivity|]. intros _. split; [reflexivity|].
    split; [reflexivity|].
    destruct Eb as [(e' & He & Hf) | (b1 & b2 & resp & _ & _ & _ & [Hapi | Hfin])];
      [exact Hf|..].
    + destruct Hapi as (_ & j & _ & Hr & _). discriminate.
    + destruct Hfin as (_ & kvs & img & mime & src & st2 & _ & _ & Hf2 & Hfd).
      apply finish_decode_cases in Hfd.
      destruct Hfd as [(_ & Hr & _) | [(e' & He & Hf & _) | (fname & bs & Hr & _)]].
      * discriminate.
      * rewrite Hf. exact Hf2.
      * discriminate.
Qed.

(** C8: on the success status the metadata is the dump of a record with
    exactly the fields modelVersion, responseId, mimeType, source and
    finalImage, where modelVersion and responseId are the top-level fields
    of the parsed response, or ["unknown"] when the response lacks them;
    and conversely, once the image has been extracted and saved, the
    metadata step cannot fail: the run succeeds whether or not the response
    has modelVersion or responseId, with ["unknown"] for an absent one. *)
Theorem gemini_generate_success_metadata (w : World) (api_key prompt : string)
    (influencer_img product_img : option string) (st : St) :
  (forall img b64 meta st',
   gemini_generate w api_key prompt influencer_img product_img st
   = (Ok (msg_success, img, b64, meta), st') ->
   exists b1 b2 resp kvs mime src fname,
     image_to_base64 w influencer_img = Ok b1 /\
     image_to_base64 w product_img = Ok b2 /\
     http_post w (calls st) gemini_url (gemini_headers api_key)
       (build_payload prompt b1 b2) = Ok resp /\
     status_code resp = 200 /\
     json_loads w (text resp) = Ok (JObj kvs) /\
     img = Some fname /\
     meta = json_dumps w (JObj [
       ("modelVersion", match obj_lookup "modelVersion" kvs with
                        | Some v => v | None => JStr "unknown" end);
       ("responseId", match obj_lookup "responseId" kvs with
                      | Some v => v | None => JStr "unknown" end);
       ("mimeType", mime);
       ("source", src);
       ("finalImage", JStr ("/file=" ++ fname))]))
  /\
  (forall b1 b2 resp kvs img mime src st2 fname st3,
   api_key <> "" ->
   image_to_base64 w influencer_img = Ok b1 ->
   image_to_base64 w product_img = Ok b2 ->
   http_post w (calls st) gemini_url (gemini_headers api_key)
     (build_payload prompt b1 b2) = Ok resp ->
   status_code resp = 200 ->
   json_loads w (text resp) = Ok (JObj kvs) ->
   extract_image w (JObj kvs)
     (after_post st (Post gemini_url (gemini_headers api_key) (build_payload prompt b1 b2)))
   = (Ok (img, mime, src), st2) ->
   truthy img = true ->
   save_base64_to_jpeg w img st2 = (Ok fname, st3) ->
   exists bs,
     file_lookup fname (files st3) = Some bs /\
     gemini_generate w api_key prompt influencer_img product_img st
     = (Ok (msg_success, Some fname, b64encode bs, json_dumps w (JObj [
          ("modelVersion", match obj_lookup "modelVersion" kvs with
                           | Some v => v | None => JStr "unknown" end);
          ("responseId", match obj_lookup "responseId" kvs with
                         | Some v => v | None => JStr "unknown" end);
          ("mimeType", mime);
          ("source", src);
          ("finalImage", JStr ("/file=" ++ fname))])), st3)).
Proof.
  split.
  - intros img b64 meta st'.
    unfold gemini_generate. destruct (String.eqb api_key "").
    { intros H. inversion H. }
    unfold try_except.
    destruct (gemini_body w api_key prompt influencer_img product_img st) as [r st1] eqn:Eb.
    destruct r as [t|e].
    2:{ intros H. inversion H. }
    intros H. inversion H; subst t st1.
    apply gemini_body_cases in Eb.
    destruct Eb as [(e & He & _) | (b1 & b2 & resp & E1 & E2 & E3 & [Hapi | Hfin])];
      [discriminate|..].
    + destruct Hapi as (_ & j & _ & Hr & _). inversion Hr.
    + destruct Hfin as (E4 & kvs & img' & mime & src & st2 & E5 & _ & _ & Hfd).
      apply finish_decode_cases in Hfd.
      destruct Hfd as [(_ & Hr & _) | [(e & He & _) | (fname & bs & Hr & _)]].
      * inversion Hr.
      * discriminate.
      * inversion Hr; subst.
        exists b1, b2, resp, kvs, mime, src, fname.
        repeat split; try assumption. apply Z.eqb_eq, E4.
  - intros b1 b2 resp kvs img mime src st2 fname st3 Hk E1 E2 E3 E4 E5 Hx Ht Hs.
    destruct (save_base64_to_jpeg_inv w img st2 fname st3 Hs)
      as (img_bytes & img0 & im & bs & _ & _ & _ & _ & Hfn & Hst3).
    exists bs. split.
    { rewrite Hst3. cbn [files file_lookup]. rewrite String.eqb_refl. reflexivity. }
    unfold gemini_generate. apply String.eqb_neq in Hk. rewrite Hk. unfold try_except.
    rewrite (gemini_body_200 w api_key prompt _ _ st b1 b2 resp _ E1 E2 E3 E4 E5), Hx.
    unfold finish_decode. rewrite Ht. cbn [negb]. unfold bind at 1. rewrite Hs.
    unfold bind, read_file, lift, ret. rewrite Hst3. cbn [files file_lookup].
    rewrite String.eqb_refl. rewrite !py_get_obj. reflexivity.
Qed.

(** C5: the image is looked for in the first candidate only, among its
    parts in order: when the parts before [p] are dicts without
    [inlineData]/[fileData] and [p] has one of them, the loop behaves as if
    [p] were the only part (same values, same HTTP requests), whatever the
    later parts and the other candidates hold. *)
Theorem extract_image_first_image_part (w : World) (data c0 cont p : json)
    (others l1 l2 : list json) (st : St) :
  py_get data "candidates" (JArr [JObj []]) = Ok (JArr (c0 :: others)) ->
  py_get c0 "content" (JObj []) = Ok cont ->
  py_get cont "parts" (JArr []) = Ok (JArr (l1 ++ p :: l2)) ->
  forallb plain_part l1 = true ->
  image_part p = true ->
  extract_image w data st = scan_parts w [p] st.
Proof.
  intros H1 H2 H3 Hl Hp.
  rewrite (extract_image_parts w data c0 cont others _ st H1 H2 H3).
  rewrite (scan_parts_skip w l1 (p :: l2) st Hl).
  apply scan_parts_break, Hp.
Qed.

Lemma extract_image_first_image_part_witness :
  extract_image (Demo.w_file)
    Demo.doc_file Demo.st0
  = scan_parts (Demo.w_file)
      [Demo.part_file] Demo.st0.
Proof.
  apply (extract_image_first_image_part Demo.w_file Demo.doc_file
           (Demo.cand [Demo.part_text; Demo.part_file; Demo.part_inline])
           (JObj [("parts", JArr [Demo.part_text; Demo.part_file; Demo.part_inline])])
           Demo.part_file [Demo.cand [Demo.part_inline]] [Demo.part_text] [Demo.part_inline]);
    reflexivity.
Defined.

(** C6: on a 200 answer whose first candidate has no part with
    [inlineData] or [fileData] (in particular an empty or missing parts
    list), the result is the no-image status with no image, an empty base64
    output and the dump of the parsed response; only the POST was issued
    and no file was written. *)
Theorem gemini_generate_no_image_part (w : World) (api_key prompt : string)
    (influencer_img product_img : option string) (st : St) b1 b2 resp kvs
    (c0 cont : json) (others parts : list json) :
  api_key <> "" ->
  image_to_base64 w influencer_img = Ok b1 ->
  image_to_base64 w product_img = Ok b2 ->
  http_post w (calls st) gemini_url (gemini_headers api_key)
    (build_payload prompt b1 b2) = Ok resp ->
  status_code resp = 200 ->
  json_loads w (text resp) = Ok (JObj kvs) ->
  py_get (JObj kvs) "candidates" (JArr [JObj []]) = Ok (JArr (c0 :: others)) ->
  py_get c0 "content" (JObj []) = Ok cont ->
  py_get cont "parts" (JArr []) = Ok (JArr parts) ->
  forallb plain_part parts = true ->
  gemini_generate w api_key prompt influencer_img product_img st
  = (Ok (msg_no_image, None, "", json_dumps w (JObj kvs)),
     after_post st (Post gemini_url (gemini_headers api_key) (build_payload prompt b1 b2))).
Proof.
  intros Hk E1 E2 E3 E4 E5 H1 H2 H3 Hl.
  unfold gemini_generate. apply String.eqb_neq in Hk. rewrite Hk.
  unfold try_except. rewrite (gemini_body_200 w api_key prompt _ _ st b1 b2 resp _ E1 E2 E3 E4 E5).
  rewrite (extract_image_parts w _ c0 cont others parts _ H1 H2 H3).
  rewrite <- (app_nil_r parts), (scan_parts_skip w parts [] _ Hl).
  reflexivity.
Qed.

Lemma gemini_generate_no_image_part_witness :
  gemini_generate (Demo.w_empty)
    "key" "prompt" (Some "influencer.png") (Some "product.png") Demo.st0
  = (Ok (msg_no_image, None, "", Demo.dumps Demo.doc_empty),
     after_post Demo.st0 (Post gemini_url (gemini_headers "key")
                            (build_payload "prompt" "/9j/4AAQ/9k=" "/9j/4AAQ/9k="))).
Proof.
  apply (gemini_generate_no_image_part Demo.w_empty "key" "prompt" _ _ Demo.st0
           "/9j/4AAQ/9k=" "/9j/4AAQ/9k=" (mk_response 200 "EMPTY" [])
           [("candidates", JArr [Demo.cand []; Demo.cand [Demo.part_inline]]);
            ("modelVersion", JStr "m-1")]
           (Demo.cand []) (JObj [("parts", JArr [])]) [Demo.cand [Demo.part_inline]] []);
    try reflexivity; discriminate.
Defined.

Lemma scan_parts_inline (w : World) pk dk st :
  obj_lookup "inlineData" pk = Some (JObj dk) ->
  scan_parts w [JObj pk] st
  = (Ok (match obj_lookup "data" dk with Some v => v | None => JNull end,
         match obj_lookup "mimeType" dk with Some v => v | None => JNull end,
         JStr "inlineData"), st).
Proof.
  intros Hi. cbn [scan_parts]. unfold bind, lift, ret. rewrite py_contains_obj.
  unfold has_key. rewrite Hi. cbn. rewrite Hi. rewrite !py_get_obj.
  destruct (obj_lookup "data" dk), (obj_lookup "mimeType" dk); reflexivity.
Qed.

Lemma scan_parts_file (w : World) pk fk uri st :
  obj_lookup "inlineData" pk = None ->
  obj_lookup "fileData" pk = Some (JObj fk) ->
  obj_lookup "fileUri" fk = Some uri ->
  scan_parts w [JObj pk] st
  = (match http_get w (calls st) uri with
     | Ok r => Ok (JStr (b64encode (content r)),
                   match obj_lookup "mimeType" fk with Some m => m | None => JStr "image/jpeg" end,
                   JStr "fileData")
     | Raise e => Raise e
     end, after_post st (Get uri)).
Proof.
  intros Hi Hf Hu. cbn [scan_parts]. unfold bind, lift, ret. rewrite !py_contains_obj.
  unfold has_key. rewrite Hi, Hf. cbn. rewrite Hf. cbn. rewrite Hu.
  unfold requests_get, after_post.
  destruct (http_get w (calls st) uri), (obj_lookup "mimeType" fk); reflexivity.
Qed.

(** C9: when the first image-bearing part of the first candidate is
    [inlineData] whose ["data"] is absent, [None] or [""], the result is the
    no-image status (the test at line 95 is on the falsy payload), not
    success and not an exception. *)
Theorem gemini_generate_inline_without_data (w : World) (api_key prompt : string)
    (influencer_img product_img : option string) (st : St) b1 b2 resp kvs
    (c0 cont : json) (others l1 l2 : list json) pk dk :
  api_key <> "" ->
  image_to_base64 w influencer_img = Ok b1 ->
  image_to_base64 w product_img = Ok b2 ->
  http_post w (calls st) gemini_url (gemini_headers api_key)
    (build_payload prompt b1 b2) = Ok resp ->
  status_code resp = 200 ->
  json_loads w (text resp) = Ok (JObj kvs) ->
  py_get (JObj kvs) "candidates" (JArr [JObj []]) = Ok (JArr (c0 :: others)) ->
  py_get c0 "content" (JObj []) = Ok cont ->
  py_get cont "parts" (JArr []) = Ok (JArr (l1 ++ JObj pk :: l2)) ->
  forallb plain_part l1 = true ->
  obj_lookup "inlineData" pk = Some (JObj dk) ->
  (obj_lookup "data" dk = None \/ obj_lookup "data" dk = Some JNull
   \/ obj_lookup "data" dk = Some (JStr "")) ->
  gemini_generate w api_key prompt influencer_img product_img st
  = (Ok (msg_no_image, None, "", json_dumps w (JObj kvs)),
     after_post st (Post gemini_url (gemini_headers api_key) (build_payload prompt b1 b2))).
Proof.
  intros Hk E1 E2 E3 E4 E5 H1 H2 H3 Hl Hi Hd.
  unfold gemini_generate. apply String.eqb_neq in Hk. rewrite Hk.
  unfold try_except. rewrite (gemini_body_200 w api_key prompt _ _ st b1 b2 resp _ E1 E2 E3 E4 E5).
  rewrite (extract_image_parts w _ c0 cont others _ _ H1 H2 H3).
  rewrite (scan_parts_skip w l1 _ _ Hl).
  rewrite scan_parts_break by (cbn; unfold has_key; rewrite Hi; reflexivity).
  rewrite (scan_parts_inline w pk dk _ Hi).
  destruct Hd as [Hd | [Hd | Hd]]; rewrite Hd; reflexivity.
Qed.

Lemma gemini_generate_inline_without_data_witness :
  gemini_generate Demo.w_inline_empty "key" "prompt" (Some "influencer.png") (Some "product.png")
    Demo.st0
  = (Ok (msg_no_image, None, "", Demo.dumps Demo.doc_inline_empty),
     after_post Demo.st0 (Post gemini_url (gemini_headers "key")
                            (build_payload "prompt" "/9j/4AAQ/9k=" "/9j/4AAQ/9k="))).
Proof.
  apply (gemini_generate_inline_without_data Demo.w_inline_empty "key" "prompt" _ _ Demo.st0
           "/9j/4AAQ/9k=" "/9j/4AAQ/9k=" (mk_response 200 "INLINE0" [])
           [("candidates", JArr [Demo.cand [Demo.part_text; Demo.part_inline_empty;
                                            Demo.part_inline]])]
           (Demo.cand [Demo.part_text; Demo.part_inline_empty; Demo.part_inline])
           (JObj [("parts", JArr [Demo.part_text; Demo.part_inline_empty; Demo.part_inline])])
           [] [Demo.part_text] [Demo.part_inline]
           [("inlineData", JObj [("mimeType", JStr "image/png"); ("data", JStr "")])]
           [("mimeType", JStr "image/png"); ("data", JStr "")]);
    try reflexivity; [discriminate | right; right; reflexivity].
Defined.

(** C3 (as the code has it): when the first image-bearing part of the first
    candidate is a [fileData] reference, exactly one GET to its [fileUri]
    follows the POST and no other request is made; the loop yields the
    base64 of the fetched bytes, the declared [mimeType] (["image/jpeg"]
    when absent) and the source ["fileData"], which is the value of the
    metadata field [source] on success. *)
Theorem gemini_generate_file_reference (w : World) (api_key prompt : string)
    (influencer_img product_img : option string) (st : St) b1 b2 resp kvs
    (c0 cont : json) (others l1 l2 : list json) pk fk (uri : json) :
  api_key <> "" ->
  image_to_base64 w influencer_img = Ok b1 ->
  image_to_base64 w product_img = Ok b2 ->
  http_post w (calls st) gemini_url (gemini_headers api_key)
    (build_payload prompt b1 b2) = Ok resp ->
  status_code resp = 200 ->
  json_loads w (text resp) = Ok (JObj kvs) ->
  py_get (JObj kvs) "candidates" (JArr [JObj []]) = Ok (JArr (c0 :: others)) ->
  py_get c0 "content" (JObj []) = Ok cont ->
  py_get cont "parts" (JArr []) = Ok (JArr (l1 ++ JObj pk :: l2)) ->
  forallb plain_part l1 = true ->
  obj_lookup "inlineData" pk = None ->
  obj_lookup "fileData" pk = Some (JObj fk) ->
  obj_lookup "fileUri" fk = Some uri ->
  let post := Post gemini_url (gemini_headers api_key) (build_payload prompt b1 b2) in
  let st2 := after_post (after_post st post) (Get uri) in
  let mime := match obj_lookup "mimeType" fk with Some m => m | None => JStr "image/jpeg" end in
  calls (snd (gemini_generate w api_key prompt influencer_img product_img st))
    = (calls st ++ [post; Get uri])%list
  /\ (forall e, http_get w (calls st ++ [post])%list uri = Raise e ->
        gemini_generate w api_key prompt influencer_img product_img st
        = (Ok (msg_exception e, None, "", "{}"), st2))
  /\ (forall r, http_get w (calls st ++ [post])%list uri = Ok r ->
        gemini_generate w api_key prompt influencer_img product_img st
        = try_except (finish_decode w (JObj kvs) (JStr (b64encode (content r))) mime
                        (JStr "fileData")) on_exception st2)
  /\ (forall img b64 meta st',
        gemini_generate w api_key prompt influencer_img product_img st
        = (Ok (msg_success, img, b64, meta), st') ->
        exists fname, img = Some fname /\
          meta = json_dumps w (JObj [
            ("modelVersion", match obj_lookup "modelVersion" kvs with
                             | Some v => v | None => JStr "unknown" end);
            ("responseId", match obj_lookup "responseId" kvs with
                           | Some v => v | None => JStr "unknown" end);
            ("mimeType", mime);
            ("source", JStr "fileData");
            ("finalImage", JStr ("/file=" ++ fname))])).
Proof.
  intros Hk E1 E2 E3 E4 E5 H1 H2 H3 Hl Hi Hf Hu post st2 mime.
  assert (Hrun : gemini_generate w api_key prompt influencer_img product_img st
    = try_except (fun st0 =>
        match scan_parts w [JObj pk] st0 with
        | (Ok (img, mime0, src), st3) => finish_decode w (JObj kvs) img mime0 src st3
        | (Raise e, st3) => (Raise e, st3)
        end) on_exception (after_post st post)).
  { unfold gemini_generate. apply String.eqb_neq in Hk. rewrite Hk.
    unfold try_except.
    rewrite (gemini_body_200 w api_key prompt _ _ st b1 b2 resp _ E1 E2 E3 E4 E5).
    rewrite (extract_image_parts w _ c0 cont others _ _ H1 H2 H3).
    rewrite (scan_parts_skip w l1 _ _ Hl).
    rewrite scan_parts_break by (cbn; unfold has_key; rewrite Hi, Hf; reflexivity).
    reflexivity. }
  rewrite Hrun. unfold try_except. rewrite (scan_parts_file w pk fk uri _ Hi Hf Hu).
  fold mime. cbn [calls after_post].
  destruct (http_get w (calls st ++ [post])%list uri) as [r|e] eqn:Eg.
  - destruct (finish_decode w (JObj kvs) (JStr (b64encode (content r))) mime (JStr "fileData")
                st2) as [res st'] eqn:Efd.
    pose proof (finish_decode_cases w kvs _ _ _ st2 res st' Efd) as Hc.
    assert (Hst2 : calls st2 = (calls st ++ [post; Get uri])%list)
      by (cbn; rewrite <- app_assoc; reflexivity).
    change (after_post (after_post st post) (Get uri)) with st2. rewrite Efd.
    split; [|split; [intros e He; discriminate|split; [intros r' Hr'; inversion Hr'; subst;
      unfold try_except; rewrite Efd; reflexivity|]]].
    + destruct Hc as [(_ & -> & ->) | [(e & -> & _ & Hcl) | (fname & bs & -> & _ & Hcl)]];
        cbn [snd on_exception ret]; rewrite ?Hcl; exact Hst2.
    + intros img b64 meta st'' Hs.
      destruct Hc as [(_ & -> & _) | [(e & -> & _) | (fname & bs & -> & _)]].
      * inversion Hs.
      * inversion Hs.
      * inversion Hs; subst. exists fname. split; reflexivity.
  - split; [cbn; rewrite <- app_assoc; reflexivity|].
    split; [intros e' He'; inversion He'; subst; reflexivity|].
    split; [intros r He'; discriminate|].
    intros img b64 meta st' Hs. inversion Hs.
Qed.

Lemma gemini_generate_file_reference_witness :
  calls (snd (gemini_generate Demo.w_file "key" "prompt" (Some "influencer.png")
                (Some "product.png") Demo.st0))
  = [Post gemini_url (gemini_headers "key") (build_payload "prompt" "/9j/4AAQ/9k=" "/9j/4AAQ/9k=");
     Get (JStr "https://files.example/gen.jpg")].
Proof.
  apply (gemini_generate_file_reference Demo.w_file "key" "prompt" _ _ Demo.st0
           "/9j/4AAQ/9k=" "/9j/4AAQ/9k=" (mk_response 200 "FILE" [])
           [("candidates", JArr [Demo.cand [Demo.part_text; Demo.part_file; Demo.part_inline];
                                 Demo.cand [Demo.part_inline]])]
           (Demo.cand [Demo.part_text; Demo.part_file; Demo.part_inline])
           (JObj [("parts", JArr [Demo.part_text; Demo.part_file; Demo.part_inline])])
           [Demo.cand [Demo.part_inline]] [Demo.part_text] [Demo.part_inline]
           [("fileData", JObj [("fileUri", JStr "https://files.example/gen.jpg")])]
           [("fileUri", JStr "https://files.example/gen.jpg")]
           (JStr "https://files.example/gen.jpg"));
    try reflexivity; discriminate.
Defined.

(** C3 as stated fails: on a file reference the source is marked
    ["fileData"], not ["fileRef"]. *)
Lemma gemini_generate_file_reference_source_label :
  fst (gemini_generate Demo.w_file "key" "prompt" (Some "influencer.png") (Some "product.png")
         Demo.st0)
  = Ok (msg_success, Some "generated_a1b2c30.jpeg", "/9j/4AAQ/9k=",
        Demo.dumps (JObj [("modelVersion", JStr "unknown");
                          ("responseId", JStr "unknown");
                          ("mimeType", JStr "image/jpeg");
                          ("source", JStr "fileData");
                          ("finalImage", JStr "/file=generated_a1b2c30.jpeg")]))
  /\ JStr "fileData" <> JStr "fileRef".
Proof. split; [vm_compute; reflexivity | discriminate]. Qed.

(** C2 (as the code has it): on a non-200 answer exactly one POST has been
    issued (no retry, no GET, no file); if the body parses as JSON the
    status is ["❌ API Error " ++ str(status_code)] with no image, an empty
    base64 output and the dump of the parsed body; if it does not parse, the
    parse error reaches the [except] and the status is the generic
    exception status. *)
Theorem gemini_generate_http_error (w : World) (api_key prompt : string)
    (influencer_img product_img : option string) (st : St) b1 b2 resp :
  api_key <> "" ->
  image_to_base64 w influencer_img = Ok b1 ->
  image_to_base64 w product_img = Ok b2 ->
  http_post w (calls st) gemini_url (gemini_headers api_key)
    (build_payload prompt b1 b2) = Ok resp ->
  status_code resp <> 200 ->
  let st1 := after_post st (Post gemini_url (gemini_headers api_key)
                              (build_payload prompt b1 b2)) in
  (forall j, json_loads w (text resp) = Ok j ->
     gemini_generate w api_key prompt influencer_img product_img st
     = (Ok (msg_api_error (status_code resp), None, "", json_dumps w j), st1))
  /\ (forall e, json_loads w (text resp) = Raise e ->
     gemini_generate w api_key prompt influencer_img product_img st
     = (Ok (msg_exception e, None, "", "{}"), st1)).
Proof.
  intros Hk E1 E2 E3 E4 st1.
  unfold gemini_generate. apply String.eqb_neq in Hk. rewrite Hk. unfold try_except.
  rewrite (gemini_body_not_200 w api_key prompt _ _ st b1 b2 resp E1 E2 E3 E4).
  split; intros ? Hj; rewrite Hj; reflexivity.
Qed.

Lemma gemini_generate_http_error_witness :
  gemini_generate Demo.w_400 "key" "prompt" (Some "influencer.png") (Some "product.png") Demo.st0
  = (Ok (msg_api_error 400, None, "", Demo.dumps (JObj [("error", JObj [("code", JNum 400)])])),
     after_post Demo.st0 (Post gemini_url (gemini_headers "key")
                            (build_payload "prompt" "/9j/4AAQ/9k=" "/9j/4AAQ/9k="))).
Proof.
  apply (proj1 (gemini_generate_http_error Demo.w_400 "key" "prompt"
                  (Some "influencer.png") (Some "product.png") Demo.st0
                  "/9j/4AAQ/9k=" "/9j/4AAQ/9k=" (mk_response 400 "ERR" [])
                  ltac:(discriminate) eq_refl eq_refl eq_refl ltac:(discriminate))).
  reflexivity.
Defined.

(** C2 as stated fails: a 502 answer with an HTML body makes [resp.json()]
    raise, and the status is the generic exception status, which does not
    carry the code 502. *)
Lemma gemini_generate_http_error_html_body :
  fst (gemini_generate Demo.w_502_html "key" "prompt" (Some "influencer.png")
         (Some "product.png") Demo.st0)
  = Ok (msg_exception "Expecting value: line 1 column 1 (char 0)", None, "", "{}")
  /\ is_substring "502" (msg_exception "Expecting value: line 1 column 1 (char 0)") = false.
Proof. split; vm_compute; reflexivity. Qed.

(** C7: for an input the image library reads and converts to RGB, and
    given the library's JPEG encoder turns every RGB image into a JPEG
    stream, [image_to_base64] returns a non-empty string that
    [base64.b64decode] turns back into exactly the encoder's JPEG bytes. *)
Theorem image_to_base64_jpeg (w : World) (img_file : option string) (im rgb : image) :
  (forall i, im_mode i = "RGB" ->
     exists bs, pil_save_jpeg w i = Ok bs /\ jpeg_stream bs = true) ->
  (forall i i', pil_convert_rgb w i = Ok i' -> im_mode i' = "RGB") ->
  pil_open_path w img_file = Ok im ->
  pil_convert_rgb w im = Ok rgb ->
  exists s bs,
    image_to_base64 w img_file = Ok s /\ s <> "" /\
    pil_save_jpeg w rgb = Ok bs /\
    b64decode (JStr s) = Ok bs /\ jpeg_stream bs = true.
Proof.
  intros Hjpeg Hrgb Ho Hc.
  destruct (Hjpeg rgb (Hrgb im rgb Hc)) as (bs & Hs & Hj).
  exists (b64encode bs), bs. unfold image_to_base64. rewrite Ho. cbn [exc_bind].
  rewrite Hc. cbn [exc_bind]. rewrite Hs. cbn [exc_bind].
  assert (Hok : Forall byte_ok bs).
  { unfold jpeg_stream in Hj. apply andb_true_iff in Hj as [Hj _].
    apply andb_true_iff in Hj as [Hj _]. apply andb_true_iff in Hj as [Hj _].
    apply Forall_forall. intros b Hb. rewrite forallb_forall in Hj.
    specialize (Hj b Hb). apply andb_true_iff in Hj as [H0 H1].
    apply Z.leb_le in H0. apply Z.ltb_lt in H1. unfold byte_ok. lia. }
  split; [reflexivity|]. split.
  - unfold jpeg_stream in Hj. destruct bs as [|b rest]; [discriminate|].
    unfold b64encode. destruct rest as [|b' [|b'' rest]]; cbn; discriminate.
  - split; [reflexivity|]. split; [apply b64decode_b64encode, Hok | exact Hj].
Qed.

Lemma image_to_base64_jpeg_witness :
  exists s bs,
    image_to_base64 Demo.w_file (Some "influencer.png") = Ok s /\ s <> "" /\
    pil_save_jpeg Demo.w_file (mk_image "RGB" 2 2 [1; 2; 3; 4]) = Ok bs /\
    b64decode (JStr s) = Ok bs /\ jpeg_stream bs = true.
Proof.
  apply (image_to_base64_jpeg Demo.w_file (Some "influencer.png") Demo.rgba_image
           (mk_image "RGB" 2 2 [1; 2; 3; 4])).
  - intros i Hi. exists Demo.jpeg_bytes. cbn. unfold Demo.save_jpeg. rewrite Hi.
    split; reflexivity.
  - intros i i' H. cbn in H. inversion H. reflexivity.
  - reflexivity.
  - reflexivity.
Defined.

Lemma gemini_generate_never_raises_witness :
  gemini_generate Demo.w_file "key" "prompt" None (Some "product.png") Demo.st0
  = (Ok (msg_exception "'NoneType' object has no attribute 'read'", None, "", "{}"), Demo.st0).
Proof.
  apply (proj2 (gemini_generate_never_raises Demo.w_file "key" "prompt" None (Some "product.png")
                  Demo.st0)).
  - discriminate.
  - reflexivity.
Defined.

Lemma gemini_generate_error_outputs_empty_witness :
  exists status img b64 meta st',
    gemini_generate Demo.w_empty "key" "prompt" (Some "influencer.png") (Some "product.png")
      Demo.st0 = (Ok (status, img, b64, meta), st')
    /\ (status <> msg_success -> img = None /\ b64 = "" /\ files st' = files Demo.st0).
Proof.
  apply (gemini_generate_error_outputs_empty Demo.w_empty "key" "prompt"
           (Some "influencer.png") (Some "product.png") Demo.st0).
Defined.

Lemma gemini_generate_success_metadata_witness :
  exists bs,
    file_lookup "generated_a1b2c30.jpeg"
      (files (snd (save_base64_to_jpeg Demo.w_inline (JStr "/9j/4AAQ/9k=")
                     (after_post Demo.st0 (Post gemini_url (gemini_headers "key")
                        (build_payload "prompt" "/9j/4AAQ/9k=" "/9j/4AAQ/9k=")))))) = Some bs /\
    gemini_generate Demo.w_inline "key" "prompt" (Some "influencer.png") (Some "product.png")
      Demo.st0
    = (Ok (msg_success, Some "generated_a1b2c30.jpeg", b64encode bs,
           json_dumps Demo.w_inline (JObj [
             ("modelVersion", JStr "unknown"); ("responseId", JStr "r-7");
             ("mimeType", JStr "image/jpeg"); ("source", JStr "inlineData");
             ("finalImage", JStr "/file=generated_a1b2c30.jpeg")])),
       snd (save_base64_to_jpeg Demo.w_inline (JStr "/9j/4AAQ/9k=")
              (after_post Demo.st0 (Post gemini_url (gemini_headers "key")
                 (build_payload "prompt" "/9j/4AAQ/9k=" "/9j/4AAQ/9k="))))).
Proof.
  apply (proj2 (gemini_generate_success_metadata Demo.w_inline "key" "prompt"
                  (Some "influencer.png") (Some "product.png") Demo.st0)
           "/9j/4AAQ/9k=" "/9j/4AAQ/9k=" (mk_response 200 "INLINE" [])
           [("candidates", JArr [Demo.cand [Demo.part_inline]]); ("responseId", JStr "r-7")]
           (JStr "/9j/4AAQ/9k=") (JStr "image/jpeg") (JStr "inlineData")
           (after_post Demo.st0 (Post gemini_url (gemini_headers "key")
              (build_payload "prompt" "/9j/4AAQ/9k=" "/9j/4AAQ/9k=")))
           "generated_a1b2c30.jpeg"
           (snd (save_base64_to_jpeg Demo.w_inline (JStr "/9j/4AAQ/9k=")
                   (after_post Demo.st0 (Post gemini_url (gemini_headers "key")
                      (build_payload "prompt" "/9j/4AAQ/9k=" "/9j/4AAQ/9k="))))));
    try reflexivity; try discriminate; vm_compute; reflexivity.
Defined.

(* ------------------------------------------------------------------ *)
(** ** Further properties of [app.py] *)

(** *** Decimal rendering of the status code *)

Lemma dec_digits_val (f : nat) : forall n acc v,
  0 <= n < 10 ^ Z.of_nat f ->
  exists k, 0 <= k /\ dec_val v (dec_digits f n acc) = dec_val (v * 10 ^ k + n) acc.
Proof.
  induction f as [|f IH]; intros n acc v Hn.
  - cbn in Hn. exists 0. split; [lia|]. cbn. replace n with 0 by lia.
    rewrite Z.mul_1_r, Z.add_0_r. reflexivity.
  - rewrite Nat2Z.inj_succ, Z.pow_succ_r in Hn by lia.
    assert (Hd : Z.of_nat (nat_of_ascii (ascii_of_nat (48 + Z.to_nat (n mod 10)))) - 48
                 = n mod 10).
    { pose proof (Z.mod_pos_bound n 10 ltac:(lia)).
      rewrite nat_ascii_embedding by lia. lia. }
    cbn [dec_digits]. destruct (n <? 10) eqn:Hlt.
    + apply Z.ltb_lt in Hlt. exists 1. split; [lia|]. cbn [dec_val]. rewrite Hd.
      rewrite Z.mod_small by lia. f_equal. lia.
    + apply Z.ltb_ge in Hlt.
      assert (Hq : 0 <= n / 10 < 10 ^ Z.of_nat f).
      { split; [apply Z.div_pos; lia|]. apply Z.div_lt_upper_bound; lia. }
      destruct (IH (n / 10) (String (ascii_of_nat (48 + Z.to_nat (n mod 10))) acc) v Hq)
        as (k & Hk & E).
      exists (k + 1). split; [lia|]. rewrite E. cbn [dec_val]. rewrite Hd. f_equal.
      rewrite Z.pow_add_r by lia. pose proof (Z.div_mod n 10 ltac:(lia)). nia.
Qed.

Lemma py_str_int_val (n : Z) : 0 <= n -> dec_val 0 (py_str_int n) = n.
Proof.
  intros Hn. unfold py_str_int. destruct (n <? 0) eqn:E; [apply Z.ltb_lt in E; lia|].
  assert (Hb : n < 10 ^ Z.of_nat (S (Z.to_nat (Z.log2 n)))).
  { rewrite Nat2Z.inj_succ, Z2Nat.id by apply Z.log2_nonneg.
    destruct (Z.eq_dec n 0) as [->|Hn0]; [reflexivity|].
    destruct (Z.log2_spec n ltac:(lia)) as [_ H2].
    eapply Z.lt_le_trans; [exact H2|].
    apply Z.pow_le_mono_l. lia. }
  destruct (dec_digits_val (S (Z.to_nat (Z.log2 n))) n EmptyString 0 (conj Hn Hb))
    as (k & _ & E').
  rewrite E'. cbn. lia.
Qed.

Lemma string_app_cancel_l (p s1 s2 : string) : p ++ s1 = p ++ s2 -> s1 = s2.
Proof. induction p as [|c p IH]; cbn; intros H; [exact H | injection H; exact IH]. Qed.

(** X: distinct non-negative HTTP status codes give distinct
    ["❌ API Error <code>"] statuses (line 71): the status text determines
    the code. *)
Theorem msg_api_error_inj (c1 c2 : Z) :
  0 <= c1 -> 0 <= c2 -> msg_api_error c1 = msg_api_error c2 -> c1 = c2.
Proof.
  intros H1 H2 H. unfold msg_api_error in H. apply string_app_cancel_l in H.
  rewrite <- (py_str_int_val c1 H1), <- (py_str_int_val c2 H2), H. reflexivity.
Qed.

Lemma msg_api_error_inj_witness :
  msg_api_error 404 = msg_api_error 404 /\ 404 = 404.
Proof.
  split; [reflexivity|]. apply msg_api_error_inj; [lia | lia | reflexivity].
Defined.

(** *** Requests and files of a whole run *)

Section RunFacts.

Variable w : World.

Ltac run_all H :=
  repeat match type of H with
  | context [match ?o with Ok _ => _ | Raise _ => _ end] =>
      let E := fresh "E" in destruct o eqn:E; cbn in H
  | context [if ?b then _ else _] =>
      let E := fresh "E" in destruct b eqn:E; cbn in H
  end.

(** The parts loop issues at most one GET and touches nothing else. *)
Lemma scan_parts_frame (parts : list json) : forall st r st',
  scan_parts w parts st = (r, st') ->
  files st' = files st /\ uuids st' = uuids st /\
  (calls st' = calls st \/ exists uri, calls st' = (calls st ++ [Get uri])%list).
Proof.
  induction parts as [|part rest IH]; intros st r st' H.
  - cbn in H. inversion H; subst. auto.
  - cbn [scan_parts] in H. unfold bind, lift, ret, requests_get in H. cbn in H.
    run_all H;
      first [ exact (IH _ _ _ H)
            | inversion H; subst; cbn; split; [reflexivity | split; [reflexivity|]];
              first [left; reflexivity | right; eexists; reflexivity] ].
Qed.

Lemma extract_image_frame (data : json) st r st' :
  extract_image w data st = (r, st') ->
  files st' = files st /\ uuids st' = uuids st /\
  (calls st' = calls st \/ exists uri, calls st' = (calls st ++ [Get uri])%list).
Proof.
  unfold extract_image, bind at 1 2 3 4 5, lift at 1 2 3 4 5. intros H.
  run_all H; try (inversion H; subst; auto; fail).
  exact (scan_parts_frame _ _ _ _ H).
Qed.

(** A successful [finish_decode] went through [save_base64_to_jpeg] and
    read the file it wrote back. *)
Lemma finish_decode_success (data img mime src : json) st i b m st' :
  finish_decode w data img mime src st = (Ok (msg_success, i, b, m), st') ->
  exists bs,
    i = Some ("generated_" ++ uuid4_hex w (uuids st) ++ ".jpeg") /\
    b = b64encode bs /\
    files st' = ("generated_" ++ uuid4_hex w (uuids st) ++ ".jpeg", bs) :: files st /\
    calls st' = calls st /\
    (exists img_bytes img0 im,
       b64decode img = Ok img_bytes /\ pil_open_bytes w img_bytes = Ok img0 /\
       pil_convert_rgb w img0 = Ok im /\ pil_save_jpeg w im = Ok bs).
Proof.
  unfold finish_decode. destruct (truthy img); cbn [negb].
  2:{ intros H. inversion H. }
  unfold bind at 1. intros H.
  destruct (save_base64_to_jpeg w img st) as [[fname|e] st1] eqn:Es; [|discriminate].
  destruct (save_base64_to_jpeg_inv w img st fname st1 Es)
    as (img_bytes & img0 & im & bs & E1 & E2 & E3 & E4 & -> & ->).
  unfold bind, read_file, lift, ret in H. cbn [files file_lookup] in H.
  rewrite String.eqb_refl in H. cbn in H.
  destruct (py_get data "modelVersion" (JStr "unknown")); [|discriminate].
  destruct (py_get data "responseId" (JStr "unknown")); [|discriminate].
  inversion H; subst. exists bs. cbn. repeat split; eauto 10.
Qed.

(** A successful [gemini_generate] is a successful [finish_decode] after
    the POST and the parts loop. *)
Lemma gemini_generate_success_inv api_key prompt i1 i2 st i b m st' :
  gemini_generate w api_key prompt i1 i2 st = (Ok (msg_success, i, b, m), st') ->
  exists kvs img mime src st2,
    files st2 = files st /\
    finish_decode w (JObj kvs) img mime src st2 = (Ok (msg_success, i, b, m), st').
Proof.
  unfold gemini_generate. destruct (String.eqb api_key ""); [intros H; inversion H|].
  unfold try_except.
  destruct (gemini_body w api_key prompt i1 i2 st) as [[t|e] st1] eqn:Eb.
  2:{ unfold on_exception, ret. intros H. inversion H as [Hm];
      try (exfalso; apply (success_ne_exception e); symmetry; exact Hm). }
  intros H. inversion H; subst.
  apply gemini_body_cases in Eb.
  destruct Eb as [(e & He & _) | (b1 & b2 & resp & _ & _ & _ & [Hn | H200])]; [discriminate| |].
  - destruct Hn as (_ & j & _ & Hr & _). inversion Hr as [Hm];
    try (exfalso; apply (success_ne_api_error (status_code resp)); symmetry; exact Hm).
  - destruct H200 as (_ & kvs & img & mime & src & st2 & _ & _ & Hf & Hd).
    exists kvs, img, mime, src, st2. auto.
Qed.

Lemma gemini_body_calls api_key prompt i1 i2 st r st' :
  gemini_body w api_key prompt i1 i2 st = (r, st') ->
  calls st' = calls st \/
  exists b1 b2,
    image_to_base64 w i1 = Ok b1 /\ image_to_base64 w i2 = Ok b2 /\
    (calls st' = (calls st ++ [Post gemini_url (gemini_headers api_key)
                                 (build_payload prompt b1 b2)])%list
     \/ exists uri, calls st' = (calls st ++ [Post gemini_url (gemini_headers api_key)
                                               (build_payload prompt b1 b2); Get uri])%list).
Proof.
  intros H. unfold gemini_body, bind at 1 2 3, lift at 1 2 in H.
  destruct (image_to_base64 w i1) as [b1|e] eqn:E1; [|inversion H; subst; auto].
  destruct (image_to_base64 w i2) as [b2|e] eqn:E2; [|inversion H; subst; auto].
  right. exists b1, b2. split; [reflexivity|]. split; [reflexivity|].
  unfold requests_post in H.
  destruct (http_post w (calls st) gemini_url (gemini_headers api_key)
              (build_payload prompt b1 b2)) as [resp|e] eqn:E3;
    [|inversion H; subst; left; reflexivity].
  set (st1 := mk_st (calls st ++ [Post gemini_url (gemini_headers api_key)
                                    (build_payload prompt b1 b2)])%list
                    (files st) (uuids st)) in H.
  destruct (negb (Z.eqb (status_code resp) 200)).
  - unfold bind, lift, ret in H.
    destruct (json_loads w (text resp)); inversion H; subst; left; reflexivity.
  - unfold bind at 1, lift at 1 in H.
    destruct (json_loads w (text resp)) as [data|e]; [|inversion H; subst; left; reflexivity].
    unfold bind at 1 in H.
    destruct (extract_image w data st1) as [[[[img mime] src]|e] st2] eqn:E6.
    + destruct (extract_image_frame data st1 _ st2 E6) as (_ & _ & Hc2).
      destruct (extract_image_ok_obj w data st1 _ st2 E6) as [kvs ->].
      cbn beta iota in H.
      assert (Hc : calls st' = calls st2).
      { destruct (finish_decode_cases w kvs img mime src st2 r st' H)
          as [(_ & _ & ->) | [(e & _ & _ & Hc) | (fname & bs & _ & _ & Hc)]];
          [reflexivity | exact Hc | exact Hc]. }
      rewrite Hc. destruct Hc2 as [-> | (uri & ->)]; [left; reflexivity|].
      right. exists uri. cbn. rewrite <- app_assoc. reflexivity.
    + inversion H; subst.
      destruct (extract_image_frame data st1 _ st' E6) as (_ & _ & [-> | (uri & ->)]);
        [left; reflexivity|].
      right. exists uri. cbn. rewrite <- app_assoc. reflexivity.
Qed.

End RunFacts.

Lemma jpeg_stream_byte_ok (bs : list Z) : jpeg_stream bs = true -> Forall byte_ok bs.
Proof.
  unfold jpeg_stream. intros Hj. apply andb_true_iff in Hj as [Hj _].
  apply andb_true_iff in Hj as [Hj _]. apply andb_true_iff in Hj as [Hj _].
  apply Forall_forall. intros b Hb. rewrite forallb_forall in Hj.
  specialize (Hj b Hb). apply andb_true_iff in Hj as [H0 H1].
  apply Z.leb_le in H0. apply Z.ltb_lt in H1. unfold byte_ok. lia.
Qed.

(** X: on the success status the image slot names a new file
    ["generated_" ++ uuid4().hex ++ ".jpeg"], the only file the run wrote,
    and the base64 output is the base64 of that file's bytes as read back
    (lines 99-101), even when a file of that name existed before. *)
Theorem gemini_generate_success_saved_file (w : World) (api_key prompt : string)
    (influencer_img product_img : option string) (st : St) img b64 meta st' :
  gemini_generate w api_key prompt influencer_img product_img st
  = (Ok (msg_success, img, b64, meta), st') ->
  exists n bs,
    img = Some ("generated_" ++ uuid4_hex w n ++ ".jpeg") /\
    files st' = ("generated_" ++ uuid4_hex w n ++ ".jpeg", bs) :: files st /\
    file_lookup ("generated_" ++ uuid4_hex w n ++ ".jpeg") (files st') = Some bs /\
    b64 = b64encode bs.
Proof.
  intros H. destruct (gemini_generate_success_inv w _ _ _ _ _ _ _ _ _ H)
    as (kvs & im & mime & src & st2 & Hf & Hd).
  destruct (finish_decode_success w _ _ _ _ _ _ _ _ _ Hd) as (bs & -> & -> & Hfs & _ & _).
  exists (uuids st2), bs. rewrite Hfs, Hf. split; [reflexivity|]. split; [reflexivity|].
  split; [|reflexivity]. cbn [file_lookup]. rewrite String.eqb_refl. reflexivity.
Qed.

Lemma gemini_generate_success_saved_file_witness :
  exists n bs,
    Some "generated_a1b2c30.jpeg" = Some ("generated_" ++ uuid4_hex Demo.w_inline n ++ ".jpeg") /\
    files (snd (gemini_generate Demo.w_inline "key" "prompt" (Some "influencer.png")
                  (Some "product.png") Demo.st0))
    = ("generated_" ++ uuid4_hex Demo.w_inline n ++ ".jpeg", bs) :: files Demo.st0 /\
    file_lookup ("generated_" ++ uuid4_hex Demo.w_inline n ++ ".jpeg")
      (files (snd (gemini_generate Demo.w_inline "key" "prompt" (Some "influencer.png")
                     (Some "product.png") Demo.st0))) = Some bs /\
    "/9j/4AAQ/9k=" = b64encode bs.
Proof.
  apply (gemini_generate_success_saved_file Demo.w_inline "key" "prompt"
           (Some "influencer.png") (Some "product.png") Demo.st0
           (Some "generated_a1b2c30.jpeg") "/9j/4AAQ/9k="
           (Demo.dumps (JObj [("modelVersion", JStr "unknown"); ("responseId", JStr "r-7");
                              ("mimeType", JStr "image/jpeg"); ("source", JStr "inlineData");
                              ("finalImage", JStr "/file=generated_a1b2c30.jpeg")]))
           (snd (gemini_generate Demo.w_inline "key" "prompt" (Some "influencer.png")
                   (Some "product.png") Demo.st0))).
  vm_compute. reflexivity.
Defined.

(** X: if the image library's RGB conversion yields RGB images and its JPEG
    encoder turns RGB images into JPEG streams, the base64 output of a
    successful run decodes to a JPEG stream, the content of the saved file. *)
Theorem gemini_generate_success_jpeg (w : World) (api_key prompt : string)
    (influencer_img product_img : option string) (st : St) img b64 meta st' :
  (forall i, im_mode i = "RGB" ->
     exists bs, pil_save_jpeg w i = Ok bs /\ jpeg_stream bs = true) ->
  (forall i i', pil_convert_rgb w i = Ok i' -> im_mode i' = "RGB") ->
  gemini_generate w api_key prompt influencer_img product_img st
  = (Ok (msg_success, img, b64, meta), st') ->
  exists fname bs,
    img = Some fname /\ file_lookup fname (files st') = Some bs /\
    jpeg_stream bs = true /\ b64decode (JStr b64) = Ok bs.
Proof.
  intros Hjpeg Hrgb H. destruct (gemini_generate_success_inv w _ _ _ _ _ _ _ _ _ H)
    as (kvs & im & mime & src & st2 & Hf & Hd).
  destruct (finish_decode_success w _ _ _ _ _ _ _ _ _ Hd)
    as (bs & -> & -> & Hfs & _ & (img_bytes & img0 & im' & _ & _ & Hc & Hs)).
  destruct (Hjpeg im' (Hrgb _ _ Hc)) as (bs' & Hs' & Hj). rewrite Hs in Hs'.
  inversion Hs'; subst bs'.
  eexists _, bs. split; [reflexivity|]. rewrite Hfs. cbn [file_lookup].
  rewrite String.eqb_refl. split; [reflexivity|]. split; [exact Hj|].
  apply b64decode_b64encode, jpeg_stream_byte_ok, Hj.
Qed.

Lemma gemini_generate_success_jpeg_witness :
  exists fname bs,
    Some "generated_a1b2c30.jpeg" = Some fname /\
    file_lookup fname (files (snd (gemini_generate Demo.w_inline "key" "prompt"
                                     (Some "influencer.png") (Some "product.png") Demo.st0)))
    = Some bs /\
    jpeg_stream bs = true /\ b64decode (JStr "/9j/4AAQ/9k=") = Ok bs.
Proof.
  apply (gemini_generate_success_jpeg Demo.w_inline "key" "prompt"
           (Some "influencer.png") (Some "product.png") Demo.st0
           (Some "generated_a1b2c30.jpeg") "/9j/4AAQ/9k="
           (Demo.dumps (JObj [("modelVersion", JStr "unknown"); ("responseId", JStr "r-7");
                              ("mimeType", JStr "image/jpeg"); ("source", JStr "inlineData");
                              ("finalImage", JStr "/file=generated_a1b2c30.jpeg")]))
           (snd (gemini_generate Demo.w_inline "key" "prompt" (Some "influencer.png")
                   (Some "product.png") Demo.st0))).
  - intros i Hi. exists Demo.jpeg_bytes. cbn. unfold Demo.save_jpeg. rewrite Hi.
    split; reflexivity.
  - intros i i' Hc. cbn in Hc. inversion Hc. reflexivity.
  - vm_compute. reflexivity.
Defined.

(** X: a run of [gemini_generate] issues no request at all, or exactly the
    generation POST (carrying the API key in its headers and the prompt
    and the two re-encoded images in its payload), or that POST followed by
    a single GET; the POST requires a non-empty key and both images
    encoded. *)
Theorem gemini_generate_requests (w : World) (api_key prompt : string)
    (influencer_img product_img : option string) (st : St) r st' :
  gemini_generate w api_key prompt influencer_img product_img st = (r, st') ->
  calls st' = calls st \/
  (api_key <> "" /\ exists b1 b2,
     image_to_base64 w influencer_img = Ok b1 /\ image_to_base64 w product_img = Ok b2 /\
     (calls st' = (calls st ++ [Post gemini_url (gemini_headers api_key)
                                  (build_payload prompt b1 b2)])%list
      \/ exists uri, calls st' = (calls st ++ [Post gemini_url (gemini_headers api_key)
                                                (build_payload prompt b1 b2); Get uri])%list)).
Proof.
  unfold gemini_generate. destruct (String.eqb api_key "") eqn:Ek.
  { intros H. inversion H; subst. left. reflexivity. }
  apply String.eqb_neq in Ek. unfold try_except.
  destruct (gemini_body w api_key prompt influencer_img product_img st) as [r1 st1] eqn:Eb.
  apply gemini_body_calls in Eb.
  assert (Hst : forall r', (match r1 with
                            | Ok a => (Ok a, st1)
                            | Raise e => on_exception e st1
                            end) = (r', st') -> st' = st1).
  { intros r' H. destruct r1; inversion H; reflexivity. }
  intros H. apply Hst in H. subst st1.
  destruct Eb as [Hc | Hc]; [left; exact Hc | right; split; [exact Ek | exact Hc]].
Qed.

Lemma gemini_generate_requests_witness :
  calls (snd (gemini_generate Demo.w_file "key" "prompt" (Some "influencer.png")
                (Some "product.png") Demo.st0)) = calls Demo.st0 \/
  ("key" <> "" /\ exists b1 b2,
     image_to_base64 Demo.w_file (Some "influencer.png") = Ok b1 /\
     image_to_base64 Demo.w_file (Some "product.png") = Ok b2 /\
     (calls (snd (gemini_generate Demo.w_file "key" "prompt" (Some "influencer.png")
                    (Some "product.png") Demo.st0))
      = (calls Demo.st0 ++ [Post gemini_url (gemini_headers "key")
                              (build_payload "prompt" b1 b2)])%list
      \/ exists uri, calls (snd (gemini_generate Demo.w_file "key" "prompt"
                                  (Some "influencer.png") (Some "product.png") Demo.st0))
                     = (calls Demo.st0 ++ [Post gemini_url (gemini_headers "key")
                                             (build_payload "prompt" b1 b2); Get uri])%list)).
Proof.
  apply (gemini_generate_requests Demo.w_file "key" "prompt" (Some "influencer.png")
           (Some "product.png") Demo.st0
           (fst (gemini_generate Demo.w_file "key" "prompt" (Some "influencer.png")
                   (Some "product.png") Demo.st0))
           (snd (gemini_generate Demo.w_file "key" "prompt" (Some "influencer.png")
                   (Some "product.png") Demo.st0))).
  vm_compute. reflexivity.
Defined.

(** X: if an input image cannot be opened, converted or JPEG-encoded (a
    missing upload, [None], among them), the result is the exception status
    carrying that error, with no image, an empty base64 output and ["{}"],
    and nothing has happened: no request is sent, no file is written. *)
Theorem gemini_generate_image_error (w : World) (api_key prompt : string)
    (influencer_img product_img : option string) (st : St) e :
  api_key <> "" ->
  (image_to_base64 w influencer_img = Raise e \/
   exists b1, image_to_base64 w influencer_img = Ok b1 /\ image_to_base64 w product_img = Raise e) ->
  gemini_generate w api_key prompt influencer_img product_img st
  = (Ok (msg_exception e, None, "", "{}"), st).
Proof.
  intros Hk Hi. unfold gemini_generate. apply String.eqb_neq in Hk. rewrite Hk.
  unfold try_except, gemini_body, bind at 1 2, lift at 1 2.
  destruct Hi as [-> | (b1 & -> & ->)]; reflexivity.
Qed.

Lemma gemini_generate_image_error_witness :
  gemini_generate Demo.w_file "key" "prompt" None (Some "product.png") Demo.st0
  = (Ok (msg_exception "'NoneType' object has no attribute 'read'", None, "", "{}"), Demo.st0).
Proof.
  apply gemini_generate_image_error; [discriminate | left; reflexivity].
Defined.

Section EdgeRuns.

Variable w : World.
Variables (api_key prompt : string) (influencer_img product_img : option string) (st : St).
Variables (b1 b2 : string) (resp : response).
Hypothesis Hk : api_key <> "".
Hypothesis E1 : image_to_base64 w influencer_img = Ok b1.
Hypothesis E2 : image_to_base64 w product_img = Ok b2.
Hypothesis E3 : http_post w (calls st) gemini_url (gemini_headers api_key)
                  (build_payload prompt b1 b2) = Ok resp.
Hypothesis E4 : status_code resp = 200.

Let st1 := after_post st (Post gemini_url (gemini_headers api_key) (build_payload prompt b1 b2)).

(** The run on a 200 answer, once the loop has produced its triple. *)
Lemma run_200 data :
  json_loads w (text resp) = Ok data ->
  gemini_generate w api_key prompt influencer_img product_img st
  = try_except (fun _ => match extract_image w data st1 with
                         | (Ok (img, mime, src), st2) => finish_decode w data img mime src st2
                         | (Raise e, st2) => (Raise e, st2)
                         end) on_exception st.
Proof.
  intros E5. unfold gemini_generate. apply String.eqb_neq in Hk. rewrite Hk.
  unfold try_except at 1 2. rewrite (gemini_body_200 w api_key prompt _ _ st b1 b2 resp data
                                       E1 E2 E3 E4 E5).
  reflexivity.
Qed.

End EdgeRuns.

(** X: a 200 answer whose body has no [candidates] key falls back to
    [[{}]] (line 76) and gives the no-image status with the dump of the
    body, after the POST alone. *)
Theorem gemini_generate_no_candidates (w : World) (api_key prompt : string)
    (influencer_img product_img : option string) (st : St) b1 b2 resp kvs :
  api_key <> "" ->
  image_to_base64 w influencer_img = Ok b1 ->
  image_to_base64 w product_img = Ok b2 ->
  http_post w (calls st) gemini_url (gemini_headers api_key)
    (build_payload prompt b1 b2) = Ok resp ->
  status_code resp = 200 ->
  json_loads w (text resp) = Ok (JObj kvs) ->
  obj_lookup "candidates" kvs = None ->
  gemini_generate w api_key prompt influencer_img product_img st
  = (Ok (msg_no_image, None, "", json_dumps w (JObj kvs)),
     after_post st (Post gemini_url (gemini_headers api_key) (build_payload prompt b1 b2))).
Proof.
  intros Hk E1 E2 E3 E4 E5 Hc.
  rewrite (run_200 w api_key prompt _ _ st b1 b2 resp Hk E1 E2 E3 E4 _ E5).
  unfold extract_image, bind, lift. rewrite py_get_obj, Hc. reflexivity.
Qed.

Lemma gemini_generate_no_candidates_witness :
  gemini_generate (DemoEdge.w_of "NOCAND") "key" "prompt" (Some "influencer.png")
    (Some "product.png") Demo.st0
  = (Ok (msg_no_image, None, "", Demo.dumps (JObj [("modelVersion", JStr "m-2")])),
     after_post Demo.st0 (Post gemini_url (gemini_headers "key")
                            (build_payload "prompt" "/9j/4AAQ/9k=" "/9j/4AAQ/9k="))).
Proof.
  apply (gemini_generate_no_candidates (DemoEdge.w_of "NOCAND") "key" "prompt"
           (Some "influencer.png") (Some "product.png") Demo.st0 "/9j/4AAQ/9k=" "/9j/4AAQ/9k="
           (mk_response 200 "NOCAND" [])
           [("modelVersion", JStr "m-2")]); try reflexivity; discriminate.
Defined.

(** X: a 200 answer whose [candidates] is an empty list makes
    [[0]] raise (line 76): the result is the exception status
    ["❌ Exception: list index out of range"], after the POST alone. *)
Theorem gemini_generate_empty_candidates (w : World) (api_key prompt : string)
    (influencer_img product_img : option string) (st : St) b1 b2 resp kvs :
  api_key <> "" ->
  image_to_base64 w influencer_img = Ok b1 ->
  image_to_base64 w product_img = Ok b2 ->
  http_post w (calls st) gemini_url (gemini_headers api_key)
    (build_payload prompt b1 b2) = Ok resp ->
  status_code resp = 200 ->
  json_loads w (text resp) = Ok (JObj kvs) ->
  obj_lookup "candidates" kvs = Some (JArr []) ->
  gemini_generate w api_key prompt influencer_img product_img st
  = (Ok (msg_exception "list index out of range", None, "", "{}"),
     after_post st (Post gemini_url (gemini_headers api_key) (build_payload prompt b1 b2))).
Proof.
  intros Hk E1 E2 E3 E4 E5 Hc.
  rewrite (run_200 w api_key prompt _ _ st b1 b2 resp Hk E1 E2 E3 E4 _ E5).
  unfold extract_image, bind, lift. rewrite py_get_obj, Hc. reflexivity.
Qed.

Lemma gemini_generate_empty_candidates_witness :
  gemini_generate (DemoEdge.w_of "EMPTYCAND") "key" "prompt" (Some "influencer.png")
    (Some "product.png") Demo.st0
  = (Ok (msg_exception "list index out of range", None, "", "{}"),
     after_post Demo.st0 (Post gemini_url (gemini_headers "key")
                            (build_payload "prompt" "/9j/4AAQ/9k=" "/9j/4AAQ/9k="))).
Proof.
  apply (gemini_generate_empty_candidates (DemoEdge.w_of "EMPTYCAND") "key" "prompt"
           (Some "influencer.png") (Some "product.png") Demo.st0 "/9j/4AAQ/9k=" "/9j/4AAQ/9k="
           (mk_response 200 "EMPTYCAND" []) [("candidates", JArr [])]);
    try reflexivity; discriminate.
Defined.

(** X: a 200 answer whose parsed body is not a dict (a JSON list, string,
    number, ...) fails at [data.get] (line 76): the result is the exception
    status for the missing [get] attribute, after the POST alone. *)
Theorem gemini_generate_body_not_dict (w : World) (api_key prompt : string)
    (influencer_img product_img : option string) (st : St) b1 b2 resp data :
  api_key <> "" ->
  image_to_base64 w influencer_img = Ok b1 ->
  image_to_base64 w product_img = Ok b2 ->
  http_post w (calls st) gemini_url (gemini_headers api_key)
    (build_payload prompt b1 b2) = Ok resp ->
  status_code resp = 200 ->
  json_loads w (text resp) = Ok data ->
  (forall kvs, data <> JObj kvs) ->
  gemini_generate w api_key prompt influencer_img product_img st
  = (Ok (msg_exception ("'" ++ type_name data ++ "' object has no attribute 'get'"),
         None, "", "{}"),
     after_post st (Post gemini_url (gemini_headers api_key) (build_payload prompt b1 b2))).
Proof.
  intros Hk E1 E2 E3 E4 E5 Hd.
  rewrite (run_200 w api_key prompt _ _ st b1 b2 resp Hk E1 E2 E3 E4 _ E5).
  unfold extract_image, bind at 1, lift at 1.
  destruct data as [| | | | |kvs]; try reflexivity. exfalso. exact (Hd kvs eq_refl).
Qed.

Lemma gemini_generate_body_not_dict_witness :
  gemini_generate (DemoEdge.w_of "LIST") "key" "prompt" (Some "influencer.png")
    (Some "product.png") Demo.st0
  = (Ok (msg_exception "'list' object has no attribute 'get'", None, "", "{}"),
     after_post Demo.st0 (Post gemini_url (gemini_headers "key")
                            (build_payload "prompt" "/9j/4AAQ/9k=" "/9j/4AAQ/9k="))).
Proof.
  apply (gemini_generate_body_not_dict (DemoEdge.w_of "LIST") "key" "prompt"
           (Some "influencer.png") (Some "product.png") Demo.st0 "/9j/4AAQ/9k=" "/9j/4AAQ/9k="
           (mk_response 200 "LIST" []) (JArr [JNum 1])); try reflexivity.
  - discriminate.
  - intros kvs H. discriminate.
Defined.

(** X: when the first image-bearing part is a [fileData] dict without a
    [fileUri] key, [part["fileData"]["fileUri"]] raises (line 88): the
    result is the exception status ["❌ Exception: 'fileUri'"] and no GET
    is issued. *)
Theorem gemini_generate_file_without_uri (w : World) (api_key prompt : string)
    (influencer_img product_img : option string) (st : St) b1 b2 resp kvs
    (c0 cont : json) (others l1 l2 : list json) pk fk :
  api_key <> "" ->
  image_to_base64 w influencer_img = Ok b1 ->
  image_to_base64 w product_img = Ok b2 ->
  http_post w (calls st) gemini_url (gemini_headers api_key)
    (build_payload prompt b1 b2) = Ok resp ->
  status_code resp = 200 ->
  json_loads w (text resp) = Ok (JObj kvs) ->
  py_get (JObj kvs) "candidates" (JArr [JObj []]) = Ok (JArr (c0 :: others)) ->
  py_get c0 "content" (JObj []) = Ok cont ->
  py_get cont "parts" (JArr []) = Ok (JArr (l1 ++ JObj pk :: l2)) ->
  forallb plain_part l1 = true ->
  obj_lookup "inlineData" pk = None ->
  obj_lookup "fileData" pk = Some (JObj fk) ->
  obj_lookup "fileUri" fk = None ->
  gemini_generate w api_key prompt influencer_img product_img st
  = (Ok (msg_exception "'fileUri'", None, "", "{}"),
     after_post st (Post gemini_url (gemini_headers api_key) (build_payload prompt b1 b2))).
Proof.
  intros Hk E1 E2 E3 E4 E5 H1 H2 H3 Hl Hi Hf Hu.
  rewrite (run_200 w api_key prompt _ _ st b1 b2 resp Hk E1 E2 E3 E4 _ E5).
  rewrite (extract_image_parts w _ c0 cont others _ _ H1 H2 H3).
  rewrite (scan_parts_skip w l1 _ _ Hl).
  rewrite scan_parts_break by (cbn; unfold has_key; rewrite Hi, Hf; reflexivity).
  cbn [scan_parts]. unfold bind at 1 2 3, lift at 1 2 3. rewrite !py_contains_obj.
  unfold has_key. rewrite Hi, Hf. cbn [py_getitem]. rewrite Hf. cbn. rewrite Hu. reflexivity.
Qed.

Lemma gemini_generate_file_without_uri_witness :
  gemini_generate (DemoEdge.w_of "NOURI") "key" "prompt" (Some "influencer.png")
    (Some "product.png") Demo.st0
  = (Ok (msg_exception "'fileUri'", None, "", "{}"),
     after_post Demo.st0 (Post gemini_url (gemini_headers "key")
                            (build_payload "prompt" "/9j/4AAQ/9k=" "/9j/4AAQ/9k="))).
Proof.
  apply (gemini_generate_file_without_uri (DemoEdge.w_of "NOURI") "key" "prompt"
           (Some "influencer.png") (Some "product.png") Demo.st0 "/9j/4AAQ/9k=" "/9j/4AAQ/9k="
           (mk_response 200 "NOURI" [])
           [("candidates", JArr [Demo.cand [Demo.part_text; DemoEdge.part_no_uri]])]
           (Demo.cand [Demo.part_text; DemoEdge.part_no_uri])
           (JObj [("parts", JArr [Demo.part_text; DemoEdge.part_no_uri])])
           [] [Demo.part_text] []
           [("fileData", JObj [("mimeType", JStr "image/png")])]
           [("mimeType", JStr "image/png")]); try reflexivity; discriminate.
Defined.

(** X: when the first image-bearing part carries an [inlineData] dict, it
    is taken as inline data even if it also carries [fileData] (the
    [inlineData] test comes first, line 82): the rest of the run is
    [finish_decode] on that dict's ["data"] and ["mimeType"] (None when
    absent) with the source ["inlineData"], and the run issues the POST and
    no GET, whatever the outcome. *)
Theorem gemini_generate_inline_no_get (w : World) (api_key prompt : string)
    (influencer_img product_img : option string) (st : St) b1 b2 resp kvs
    (c0 cont : json) (others l1 l2 : list json) pk dk :
  api_key <> "" ->
  image_to_base64 w influencer_img = Ok b1 ->
  image_to_base64 w product_img = Ok b2 ->
  http_post w (calls st) gemini_url (gemini_headers api_key)
    (build_payload prompt b1 b2) = Ok resp ->
  status_code resp = 200 ->
  json_loads w (text resp) = Ok (JObj kvs) ->
  py_get (JObj kvs) "candidates" (JArr [JObj []]) = Ok (JArr (c0 :: others)) ->
  py_get c0 "content" (JObj []) = Ok cont ->
  py_get cont "parts" (JArr []) = Ok (JArr (l1 ++ JObj pk :: l2)) ->
  forallb plain_part l1 = true ->
  obj_lookup "inlineData" pk = Some (JObj dk) ->
  gemini_generate w api_key prompt influencer_img product_img st
  = (match finish_decode w (JObj kvs)
             (match obj_lookup "data" dk with Some v => v | None => JNull end)
             (match obj_lookup "mimeType" dk with Some v => v | None => JNull end)
             (JStr "inlineData")
             (after_post st (Post gemini_url (gemini_headers api_key)
                               (build_payload prompt b1 b2))) with
     | (Ok a, s) => (Ok a, s)
     | (Raise e, s) => on_exception e s
     end)
  /\ calls (snd (gemini_generate w api_key prompt influencer_img product_img st))
     = (calls st ++ [Post gemini_url (gemini_headers api_key) (build_payload prompt b1 b2)])%list.
Proof.
  intros Hk E1 E2 E3 E4 E5 H1 H2 H3 Hl Hi.
  rewrite (run_200 w api_key prompt _ _ st b1 b2 resp Hk E1 E2 E3 E4 _ E5).
  rewrite (extract_image_parts w _ c0 cont others _ _ H1 H2 H3).
  rewrite (scan_parts_skip w l1 _ _ Hl).
  rewrite scan_parts_break by (cbn; unfold has_key; rewrite Hi; reflexivity).
  rewrite (scan_parts_inline w pk dk _ Hi).
  set (st1 := after_post st (Post gemini_url (gemini_headers api_key)
                               (build_payload prompt b1 b2))).
  unfold try_except.
  split; [reflexivity|].
  destruct (finish_decode w (JObj kvs) _ _ (JStr "inlineData") st1) as [r st'] eqn:Ed.
  assert (Hc : calls st' = calls st1).
  { destruct (finish_decode_cases w kvs _ _ _ st1 r st' Ed)
      as [(_ & _ & ->) | [(e & _ & _ & Hc) | (fname & bs & _ & _ & Hc)]];
      [reflexivity | exact Hc | exact Hc]. }
  destruct r; cbn; exact Hc.
Qed.

Lemma gemini_generate_inline_no_get_witness :
  gemini_generate (DemoEdge.w_of "BOTH") "key" "prompt" (Some "influencer.png")
    (Some "product.png") Demo.st0
  = (match finish_decode (DemoEdge.w_of "BOTH")
             (JObj [("candidates", JArr [Demo.cand [DemoEdge.part_both]])])
             (JStr "/9j/4AAQ/9k=") (JStr "image/jpeg") (JStr "inlineData")
             (after_post Demo.st0 (Post gemini_url (gemini_headers "key")
                                     (build_payload "prompt" "/9j/4AAQ/9k=" "/9j/4AAQ/9k=")))
     with
     | (Ok a, s) => (Ok a, s)
     | (Raise e, s) => on_exception e s
     end)
  /\ calls (snd (gemini_generate (DemoEdge.w_of "BOTH") "key" "prompt" (Some "influencer.png")
                   (Some "product.png") Demo.st0))
     = (calls Demo.st0 ++ [Post gemini_url (gemini_headers "key")
                             (build_payload "prompt" "/9j/4AAQ/9k=" "/9j/4AAQ/9k=")])%list.
Proof.
  apply (gemini_generate_inline_no_get (DemoEdge.w_of "BOTH") "key" "prompt"
           (Some "influencer.png") (Some "product.png") Demo.st0 "/9j/4AAQ/9k=" "/9j/4AAQ/9k="
           (mk_response 200 "BOTH" [])
           [("candidates", JArr [Demo.cand [DemoEdge.part_both]])]
           (Demo.cand [DemoEdge.part_both])
           (JObj [("parts", JArr [DemoEdge.part_both])])
           [] [] []
           (match DemoEdge.part_both with JObj kvs => kvs | _ => [] end)
           [("mimeType", JStr "image/jpeg"); ("data", JStr "/9j/4AAQ/9k=")]);
    try reflexivity; discriminate.
Defined.
